(** * Hybrid energy system components: a shallow embedding

    The Python classes of [System Components/] are embedded as Rocq
    modules, one per source file.  Conventions used throughout:

    - Python [float] and [int] values that take part in arithmetic are
      embedded as exact rationals [Q] (integers that are used as counts or
      indices are [Z]).  That embedding is the exact-arithmetic reading
      of the formulas: rounding, infinities and NaN of binary64 are
      outside it.  Where rounding decides what a call does (the two cost
      formulas at small interest rates) the methods are embedded a second
      time over IEEE binary64, in [Binary64].
    - A call that can raise is a function into [result]; the exception is
      part of the returned value.
    - A method that assigns to [self] returns the object after the call
      together with the outcome, so that an exception raised half-way
      leaves the assignments made before it visible.
    - The functions of [numpy] that the source calls ([np.cos], [np.sin],
      [np.arccos], [np.sqrt], [np.radians], [np.degrees]) are not part of
      the repository; they are taken as an interface: [NumpyOps] where
      only their values matter, [NumpyCalls] where it matters whether
      they are called at all. *)

From Stdlib Require Import ZArith QArith Qabs Qpower Qfield Qminmax.
From Stdlib Require Import List String Ascii Bool Lia Lqa.
From Stdlib Require PrimFloat FloatOps SpecFloat.
Import ListNotations.

Open Scope Q_scope.

(** ** Exceptions and results *)

Inductive exn : Type :=
| ValueError (msg : string) (fields : list string)
| ZeroDivisionError
| AttributeError (name : string)
| KeyError (name : string)
| IndexError
| TypeError
| NotImplementedError
| OverflowError.

Inductive result (A : Type) : Type :=
| Ok (a : A)
| Raise (e : exn).

Arguments Ok {A} a.
Arguments Raise {A} e.

Definition bind {A B : Type} (m : result A) (k : A -> result B) : result B :=
  match m with
  | Ok a => k a
  | Raise e => Raise e
  end.

Notation "x <- m ;; k" := (bind m (fun x => k))
  (at level 61, m at next level, right associativity).

(** ** Python arithmetic that can raise *)

(** [a / b] on Python numbers: true division, [ZeroDivisionError] when the
    divisor is zero. *)
Definition pydiv (a b : Q) : result Q :=
  if Qeq_bool b 0 then Raise ZeroDivisionError else Ok (a / b).

(** [a ** n] with an integer exponent: zero to a negative power raises
    [ZeroDivisionError]. *)
Definition pypow (a : Q) (n : Z) : result Q :=
  if Qeq_bool a 0 && (n <? 0)%Z then Raise ZeroDivisionError else Ok (a ^ n).

(** [a < b] as a boolean. *)
Definition Qltb (a b : Q) : bool := negb (Qle_bool b a).

(** ** battery.py *)

Module Battery.

Record t : Type := mk {
  SOC_min : Q;
  SOC_max : Q;
  SOC_init : Q;
  eff_ch : Q;
  eff_disch : Q;
  capacity : Q;
  min_charging_time : Q;
  P_B_max : Q;
  lifetime : Z;
  cost : Q
}.

(** [Battery.__init__]: the attributes are assigned in the order of the
    source; the division for [P_B_max] can raise, in which case no
    object is returned. *)
Definition __init__ (SOC_min SOC_max SOC_init eff_ch eff_disch capacity
                     min_charging_time : Q) (lifetime : Z) (cost : Q)
  : result t :=
  p <- pydiv capacity min_charging_time ;;
  Ok (mk SOC_min SOC_max SOC_init eff_ch eff_disch capacity
         min_charging_time p lifetime cost).

(** The constructor's default arguments. *)
Definition default : result t :=
  __init__ (2 # 10) (9 # 10) (5 # 10) (95 # 100) (95 # 100) 100 4 10%Z 10000.

Definition investment_cost (self : t) (interest_rate : Q) : result Q :=
  p <- pypow (1 + interest_rate) (- lifetime self) ;;
  pydiv (cost self * interest_rate) (1 - p).

(** Getters *)
Definition get_SOC_min (self : t) : Q := SOC_min self.
Definition get_SOC_max (self : t) : Q := SOC_max self.
Definition get_SOC_init (self : t) : Q := SOC_init self.
Definition get_eff_ch (self : t) : Q := eff_ch self.
Definition get_eff_disch (self : t) : Q := eff_disch self.
Definition get_capacity (self : t) : Q := capacity self.
Definition get_min_charging_time (self : t) : Q := min_charging_time self.
Definition get_P_B_max (self : t) : Q := P_B_max self.
Definition get_lifetime (self : t) : Z := lifetime self.
Definition get_cost (self : t) : Q := cost self.

(** Field updates, one per attribute assignment [self.x = v]. *)
Definition with_SOC_min (v : Q) (b : t) : t :=
  mk v (SOC_max b) (SOC_init b) (eff_ch b) (eff_disch b) (capacity b)
     (min_charging_time b) (P_B_max b) (lifetime b) (cost b).
Definition with_SOC_max (v : Q) (b : t) : t :=
  mk (SOC_min b) v (SOC_init b) (eff_ch b) (eff_disch b) (capacity b)
     (min_charging_time b) (P_B_max b) (lifetime b) (cost b).
Definition with_SOC_init (v : Q) (b : t) : t :=
  mk (SOC_min b) (SOC_max b) v (eff_ch b) (eff_disch b) (capacity b)
     (min_charging_time b) (P_B_max b) (lifetime b) (cost b).
Definition with_eff_ch (v : Q) (b : t) : t :=
  mk (SOC_min b) (SOC_max b) (SOC_init b) v (eff_disch b) (capacity b)
     (min_charging_time b) (P_B_max b) (lifetime b) (cost b).
Definition with_eff_disch (v : Q) (b : t) : t :=
  mk (SOC_min b) (SOC_max b) (SOC_init b) (eff_ch b) v (capacity b)
     (min_charging_time b) (P_B_max b) (lifetime b) (cost b).
Definition with_capacity (v : Q) (b : t) : t :=
  mk (SOC_min b) (SOC_max b) (SOC_init b) (eff_ch b) (eff_disch b) v
     (min_charging_time b) (P_B_max b) (lifetime b) (cost b).
Definition with_min_charging_time (v : Q) (b : t) : t :=
  mk (SOC_min b) (SOC_max b) (SOC_init b) (eff_ch b) (eff_disch b)
     (capacity b) v (P_B_max b) (lifetime b) (cost b).
Definition with_P_B_max (v : Q) (b : t) : t :=
  mk (SOC_min b) (SOC_max b) (SOC_init b) (eff_ch b) (eff_disch b)
     (capacity b) (min_charging_time b) v (lifetime b) (cost b).
Definition with_lifetime (v : Z) (b : t) : t :=
  mk (SOC_min b) (SOC_max b) (SOC_init b) (eff_ch b) (eff_disch b)
     (capacity b) (min_charging_time b) (P_B_max b) v (cost b).
Definition with_cost (v : Q) (b : t) : t :=
  mk (SOC_min b) (SOC_max b) (SOC_init b) (eff_ch b) (eff_disch b)
     (capacity b) (min_charging_time b) (P_B_max b) (lifetime b) v.

(** Setters: the object after the call and the outcome of the call. *)
Definition set_SOC_min (self : t) (value : Q) : t * result unit :=
  (with_SOC_min value self, Ok tt).
Definition set_SOC_max (self : t) (value : Q) : t * result unit :=
  (with_SOC_max value self, Ok tt).
Definition set_SOC_init (self : t) (value : Q) : t * result unit :=
  (with_SOC_init value self, Ok tt).
Definition set_eff_ch (self : t) (value : Q) : t * result unit :=
  (with_eff_ch value self, Ok tt).
Definition set_eff_disch (self : t) (value : Q) : t * result unit :=
  (with_eff_disch value self, Ok tt).

(** [self.capacity = value] is executed first; the second statement
    divides and may raise after that assignment has taken place. *)
Definition set_capacity (self : t) (value : Q) : t * result unit :=
  let self1 := with_capacity value self in
  match pydiv (capacity self1) (min_charging_time self1) with
  | Ok p => (with_P_B_max p self1, Ok tt)
  | Raise e => (self1, Raise e)
  end.

Definition set_min_charging_time (self : t) (value : Q) : t * result unit :=
  let self1 := with_min_charging_time value self in
  match pydiv (capacity self1) (min_charging_time self1) with
  | Ok p => (with_P_B_max p self1, Ok tt)
  | Raise e => (self1, Raise e)
  end.

Definition set_lifetime (self : t) (value : Z) : t * result unit :=
  (with_lifetime value self, Ok tt).
Definition set_cost (self : t) (value : Q) : t * result unit :=
  (with_cost value self, Ok tt).

(** The methods of the class other than [set_capacity] and
    [set_min_charging_time], as calls on an object.  [__repr__] only
    formats the attributes and is not listed. *)
Inductive other_call : Type :=
| CallInvestmentCost (interest_rate : Q)
| CallGetSOCMin | CallGetSOCMax | CallGetSOCInit
| CallGetEffCh | CallGetEffDisch
| CallGetCapacity | CallGetMinChargingTime | CallGetPBMax
| CallGetLifetime | CallGetCost
| CallSetSOCMin (value : Q) | CallSetSOCMax (value : Q)
| CallSetSOCInit (value : Q)
| CallSetEffCh (value : Q) | CallSetEffDisch (value : Q)
| CallSetLifetime (value : Z) | CallSetCost (value : Q).

(** The object after a call; getters and [investment_cost] assign
    nothing. *)
Definition after (c : other_call) (self : t) : t :=
  match c with
  | CallInvestmentCost _
  | CallGetSOCMin | CallGetSOCMax | CallGetSOCInit
  | CallGetEffCh | CallGetEffDisch
  | CallGetCapacity | CallGetMinChargingTime | CallGetPBMax
  | CallGetLifetime | CallGetCost => self
  | CallSetSOCMin v => fst (set_SOC_min self v)
  | CallSetSOCMax v => fst (set_SOC_max self v)
  | CallSetSOCInit v => fst (set_SOC_init self v)
  | CallSetEffCh v => fst (set_eff_ch self v)
  | CallSetEffDisch v => fst (set_eff_disch self v)
  | CallSetLifetime v => fst (set_lifetime self v)
  | CallSetCost v => fst (set_cost self v)
  end.

(** [P_B_max == capacity / min_charging_time], evaluated as Python
    would: it is not true when the division raises. *)
Definition power_consistent (self : t) : Prop :=
  pydiv (capacity self) (min_charging_time self) = Ok (P_B_max self).

End Battery.

(** ** The part of pandas and numpy that the sources use *)

Module Pandas.

(** A cell keeps the difference between an integer and a float value:
    only an integer can index a numpy array. *)
Inductive cell : Type :=
| CInt (z : Z)
| CFloat (q : Q).

Definition cell_Q (c : cell) : Q :=
  match c with
  | CInt z => inject_Z z
  | CFloat q => q
  end.

(** [c + k] for an integer [k]: integer stays integer. *)
Definition cell_add_int (c : cell) (k : Z) : cell :=
  match c with
  | CInt z => CInt (z + k)
  | CFloat q => CFloat (q + inject_Z k)
  end.

Definition Series : Type := list cell.

(** A data frame: its columns in order, each with its label.  All
    columns of a frame have the same length. *)
Definition DataFrame : Type := list (string * Series).

Definition columns (df : DataFrame) : list string := map fst df.

(** [len(df)]: the number of rows. *)
Definition len (df : DataFrame) : nat :=
  match df with
  | [] => O
  | (_, s) :: _ => List.length s
  end.

(** [df[name]]: the column with that label, [KeyError] without one. *)
Fixpoint getitem (df : DataFrame) (name : string) : result Series :=
  match df with
  | [] => Raise (KeyError name)
  | (c, s) :: rest => if String.eqb c name then Ok s else getitem rest name
  end.

(** [df[name] = values]: overwrite the column with that label, or add it
    after the existing ones. *)
Fixpoint setitem (df : DataFrame) (name : string) (values : Series)
  : DataFrame :=
  match df with
  | [] => [(name, values)]
  | (c, s) :: rest =>
      if String.eqb c name then (c, values) :: rest
      else (c, s) :: setitem rest name values
  end.

(** [s.iloc[-1]] *)
Definition iloc_last (s : Series) : result cell :=
  match rev s with
  | [] => Raise IndexError
  | c :: _ => Ok c
  end.

(** [s.iloc[t]] for [t] from [range(...)]. *)
Definition iloc (s : Series) (t : nat) : result cell :=
  match nth_error s t with
  | Some c => Ok c
  | None => Raise IndexError
  end.

(** [np.cumsum] of a list of integers. *)
Fixpoint cumsum_from (acc : Z) (l : list Z) : list Z :=
  match l with
  | [] => []
  | x :: rest => (acc + x)%Z :: cumsum_from (acc + x)%Z rest
  end.

Definition cumsum (l : list Z) : list Z := cumsum_from 0%Z l.

(** [a - b] on two arrays of one length. *)
Fixpoint array_sub (a b : list Z) : list Z :=
  match a, b with
  | x :: a', y :: b' => (x - y)%Z :: array_sub a' b'
  | _, _ => []
  end.

(** [arr[i]] on a numpy array: a negative index counts from the end, an
    index outside the array raises. *)
Definition np_getitem (arr : list Z) (i : Z) : result Z :=
  let n := Z.of_nat (List.length arr) in
  let j := if (i <? 0)%Z then (i + n)%Z else i in
  if ((0 <=? j)%Z && (j <? n)%Z)%bool then
    match nth_error arr (Z.to_nat j) with
    | Some a => Ok a
    | None => Raise IndexError
    end
  else Raise IndexError.

(** An index taken from a cell: numpy refuses a float. *)
Definition as_index (c : cell) : result Z :=
  match c with
  | CInt z => Ok z
  | CFloat _ => Raise IndexError
  end.

(** Running a fallible function over a list, stopping at the first
    exception. *)
Fixpoint mapM {A B : Type} (f : A -> result B) (l : list A)
  : result (list B) :=
  match l with
  | [] => Ok []
  | a :: rest =>
      b <- f a ;;
      bs <- mapM f rest ;;
      Ok (b :: bs)
  end.

End Pandas.

(** The numpy functions on floats that [pv_panel.py] calls. *)
Class NumpyOps : Type := {
  np_cos : Q -> Q;
  np_sin : Q -> Q;
  np_arccos : Q -> Q;
  np_sqrt : Q -> Q;
  np_radians : Q -> Q;
  np_degrees : Q -> Q
}.

(** ** Strings *)

(** [str.lower] on ASCII text. *)
Definition lower_ascii (c : ascii) : ascii :=
  let n := nat_of_ascii c in
  if (Nat.leb 65 n && Nat.leb n 90)%bool then ascii_of_nat (n + 32) else c.

Fixpoint lower (s : string) : string :=
  match s with
  | EmptyString => EmptyString
  | String c rest => String (lower_ascii c) (lower rest)
  end.

(** [sub in s] on strings: [sub] occurs in [s] as a contiguous run. *)
Fixpoint py_in (sub s : string) : bool :=
  (String.prefix sub s
   || match s with
      | EmptyString => false
      | String _ rest => py_in sub rest
      end)%bool.

(** Values passed to and returned from method calls. *)
Inductive pyval : Type :=
| VNone
| VBool (b : bool)
| VInt (z : Z)
| VFloat (q : Q)
| VFrame (df : Pandas.DataFrame).

(** A number passed as an argument ([bool] is an [int] in Python). *)
Definition as_num (v : pyval) : result Q :=
  match v with
  | VBool b => Ok (if b then 1 else 0)
  | VInt z => Ok (inject_Z z)
  | VFloat q => Ok q
  | _ => Raise TypeError
  end.

(** Truth value of an argument in an [if]. *)
Definition truthy (v : pyval) : bool :=
  match v with
  | VNone => false
  | VBool b => b
  | VInt z => negb (z =? 0)%Z
  | VFloat q => negb (Qeq_bool q 0)
  | VFrame _ => true
  end.

(** Calling a bound method whose signature has [arity] parameters after
    [self], none with a default: any other number of positional
    arguments is a [TypeError] and the body does not run. *)
Definition call_method {A : Type} (arity : nat)
    (body : list pyval -> result A) (args : list pyval) : result A :=
  if Nat.eqb (List.length args) arity then body args else Raise TypeError.

(** ** component.py *)

Module Component.

(** The abstract [investment_cost(self)]: its body raises.  A call with
    arguments other than [self] does not reach the body. *)
Definition investment_cost (args : list pyval) : result Q :=
  call_method 0 (fun _ => Raise NotImplementedError) args.

End Component.

(** ** pv_panel.py *)

Module PVPanel.

Import Pandas.

Record t : Type := mk {
  irradiance_data : DataFrame;
  G_0 : Q;
  G_N : Q;
  T_0 : Q;
  TC_N : Q;
  Talpha_N : Q;
  Beta_p : Q;
  P_max : Q;
  lifetime : Z;
  cost : Q
}.

Definition with_irradiance_data (df : DataFrame) (p : t) : t :=
  mk df (G_0 p) (G_N p) (T_0 p) (TC_N p) (Talpha_N p) (Beta_p p) (P_max p)
     (lifetime p) (cost p).

(** The six labels that [validate_irradiance_data] asks for, which are
    also the keys, in insertion order, of the dictionary that
    [calculate_irradiance_vector] fills. *)
Definition required_columns : list string :=
  ["month"; "day"; "hour"; "horizontal irradiance"; "temperature";
   "solar zenith"]%string.

(** [col.lower() in data.columns.str.lower()] for every required label. *)
Definition validate_irradiance_data (data : DataFrame) : result DataFrame :=
  if forallb (fun col =>
                existsb (String.eqb (lower col)) (map lower (columns data)))
             required_columns
  then Ok data
  else Raise (ValueError "Dataframe must contain the following columns: "
                         required_columns).

Definition __init__ (irradiance_data : DataFrame)
    (G_0 G_N T_0 TC_N Talpha_N Beta_p P_max : Q) (lifetime : Z) (cost : Q)
  : result t :=
  data <- validate_irradiance_data irradiance_data ;;
  Ok (mk data G_0 G_N T_0 TC_N Talpha_N Beta_p P_max lifetime cost).

(** The constructor with its default arguments. *)
Definition __init__default (irradiance_data : DataFrame) : result t :=
  __init__ irradiance_data 1000.0 800.0 25.0 43 25.0 (- 0.34 * 1e-2) 555.0
           25%Z 750.0.

(** The instance dictionary: the names that [__init__] assigns.  No
    other method of the class assigns to a new name. *)
Definition __dict__ (self : t) : list (string * pyval) :=
  [("irradiance_data", VFrame (irradiance_data self));
   ("G_0", VFloat (G_0 self));
   ("G_N", VFloat (G_N self));
   ("T_0", VFloat (T_0 self));
   ("TC_N", VFloat (TC_N self));
   ("Talpha_N", VFloat (Talpha_N self));
   ("Beta_p", VFloat (Beta_p self));
   ("P_max", VFloat (P_max self));
   ("lifetime", VInt (lifetime self));
   ("cost", VFloat (cost self))]%string.

Fixpoint lookup (name : string) (d : list (string * pyval)) : option pyval :=
  match d with
  | [] => None
  | (k, v) :: rest => if String.eqb k name then Some v else lookup name rest
  end.

(** [self.name] for a data attribute. *)
Definition getattr (self : t) (name : string) : result pyval :=
  match lookup name (__dict__ self) with
  | Some v => Ok v
  | None => Raise (AttributeError name)
  end.

(** [self.name] used as a number. *)
Definition getattr_num (self : t) (name : string) : result Q :=
  v <- getattr self name ;;
  match v with
  | VInt z => Ok (inject_Z z)
  | VFloat q => Ok q
  | _ => Raise TypeError
  end.

(** Getters and setters *)
Definition get_G_0 (self : t) : Q := G_0 self.
Definition get_G_N (self : t) : Q := G_N self.
Definition get_T_0 (self : t) : Q := T_0 self.
Definition get_TC_N (self : t) : Q := TC_N self.
Definition get_Talpha_N (self : t) : Q := Talpha_N self.
Definition get_Beta_p (self : t) : Q := Beta_p self.
Definition get_P_max (self : t) : Q := P_max self.

Definition set_G_0 (self : t) (value : Q) : t :=
  mk (irradiance_data self) value (G_N self) (T_0 self) (TC_N self)
     (Talpha_N self) (Beta_p self) (P_max self) (lifetime self) (cost self).
Definition set_G_N (self : t) (value : Q) : t :=
  mk (irradiance_data self) (G_0 self) value (T_0 self) (TC_N self)
     (Talpha_N self) (Beta_p self) (P_max self) (lifetime self) (cost self).
Definition set_T_0 (self : t) (value : Q) : t :=
  mk (irradiance_data self) (G_0 self) (G_N self) value (TC_N self)
     (Talpha_N self) (Beta_p self) (P_max self) (lifetime self) (cost self).
Definition set_TC_N (self : t) (value : Q) : t :=
  mk (irradiance_data self) (G_0 self) (G_N self) (T_0 self) value
     (Talpha_N self) (Beta_p self) (P_max self) (lifetime self) (cost self).
Definition set_Talpha_N (self : t) (value : Q) : t :=
  mk (irradiance_data self) (G_0 self) (G_N self) (T_0 self) (TC_N self)
     value (Beta_p self) (P_max self) (lifetime self) (cost self).
Definition set_Beta_p (self : t) (value : Q) : t :=
  mk (irradiance_data self) (G_0 self) (G_N self) (T_0 self) (TC_N self)
     (Talpha_N self) value (P_max self) (lifetime self) (cost self).
Definition set_P_max (self : t) (value : Q) : t :=
  mk (irradiance_data self) (G_0 self) (G_N self) (T_0 self) (TC_N self)
     (Talpha_N self) (Beta_p self) value (lifetime self) (cost self).

(** *** Cost *)

Definition calculate_investment_cost (self : t) (interest_rate : Q)
  : result Q :=
  if negb (Qltb 0 interest_rate && Qltb interest_rate 1) then
    Raise (ValueError "Interest rate should be a decimal between 0 and 1." [])
  else
    p <- pypow (1 + interest_rate) (- lifetime self) ;;
    pydiv (cost self * interest_rate) (1 - p).

(** *** Power output *)

(** Elementwise arithmetic on two columns of one length. *)
Fixpoint map2 {A B C : Type} (f : A -> B -> C) (l : list A) (m : list B)
  : list C :=
  match l, m with
  | a :: l', b :: m' => f a b :: map2 f l' m'
  | _, _ => []
  end.

(** The attribute names are the ones the source reads.  The object after
    the call (its frame carries the new column) is returned with the
    frame. *)
Definition calculate_power_output (self : t) : result (t * DataFrame) :=
  if negb (existsb (String.eqb "Calculated_Irradiance")
                   (columns (irradiance_data self)))
  then Raise (ValueError
                ("Irradiance data must be calculated first. "
                 ++ "Use calculate_irradiance_vector method.") [])
  else
    irradiance <- getitem (irradiance_data self) "Calculated_Irradiance" ;;
    temperature <- getitem (irradiance_data self) "Temperature" ;;
    TCN <- getattr_num self "TCN" ;;
    Talpha_N <- getattr_num self "Talpha_N" ;;
    G_N <- getattr_num self "G_N" ;;
    temp_coeff <- pydiv (TCN - Talpha_N) G_N ;;
    let temp_cell :=
      map2 (fun i t => temp_coeff * cell_Q i + cell_Q t)
           irradiance temperature in
    P_max <- getattr_num self "P_max" ;;
    G_0 <- getattr_num self "G_0" ;;
    b_p <- getattr_num self "b_p" ;;
    T_0 <- getattr_num self "T_0" ;;
    let P_panel :=
      map2 (fun i tc => P_max * (cell_Q i / G_0) * (1 + b_p * (tc - T_0)))
           irradiance temp_cell in
    let df := setitem (irradiance_data self) "Power_Output"
                      (map CFloat P_panel) in
    Ok (with_irradiance_data df self, df).

(** *** Radiation on a sloped surface (HDKR)

    The local variables of [radiation_slope_surface], each as a function
    of the arguments.  Divisions here have a numpy float on one side and
    do not raise. *)

Section RadiationSlopeSurface.

Context {np : NumpyOps}.

Variables (day time G_horizontal_radiation solar_zenith : Q).
Variables (longitude latitude : Q) (timezone_index : Z).
Variable tilt_angle : option Q.
Variables (surface_azim ground_reflectance : Q).

Definition tilt : Q :=
  match tilt_angle with
  | None => latitude
  | Some a => a
  end.

Definition longit_zone : Q := 15 * inject_Z timezone_index.

Definition b : Q := (day - 1) * (360 / 365).

Definition e : Q :=
  229.2 * (0.000075 + 0.001868 * np_cos (np_radians b)
           - 0.032077 * np_sin (np_radians b)
           - 0.014615 * np_cos (np_radians (2 * b))
           - 0.04089 * np_sin (np_radians (2 * b))).

Definition t_solar : Q := time + (4 * (longitude - longit_zone) + e) / 60.

Definition delta : Q := 23.45 * np_sin (np_radians (360 * (284 + day) / 365)).

Definition sign : Q := if Qle_bool 12 t_solar then 1 else -1.

Definition solar_azimuth : Q :=
  sign * Qabs (np_degrees (np_arccos
    ((np_cos (np_radians solar_zenith) * np_sin (np_radians latitude)
      - np_sin (np_radians delta))
     / (np_sin (np_radians solar_zenith) * np_cos (np_radians latitude))))).

Definition theta : Q :=
  np_cos (np_radians solar_zenith) * np_cos (np_radians tilt)
  + np_sin (np_radians solar_zenith) * np_sin (np_radians tilt)
    * np_cos (np_radians (solar_azimuth - surface_azim)).

Definition Gsc : Q := 1367.

Definition solar_radiation : Q :=
  Gsc * (1.000110 + 0.034221 * np_cos (np_radians b)
         + 0.001280 * np_sin (np_radians b)
         + 0.000719 * np_cos (np_radians (2 * b))
         + 0.000077 * np_sin (np_radians (2 * b))).

Definition clearness_index : Q :=
  G_horizontal_radiation
  / (solar_radiation * np_cos (np_radians solar_zenith)).

(** The [if] / [elif] / [else] on the clearness index. *)
Definition Ro_d_of (clearness_index : Q) : Q :=
  if Qle_bool clearness_index 0.35 then 1 - 0.249 * clearness_index
  else if Qltb 0.75 clearness_index then 0.177
  else 1.557 - 1.84 * clearness_index.

Definition Ro_d : Q := Ro_d_of clearness_index.

Definition diffuse_radiation : Q := Ro_d * G_horizontal_radiation.

Definition beam_radiation : Q := (1 - Ro_d) * G_horizontal_radiation.

Definition Rb : Q :=
  np_cos (np_radians theta) / np_cos (np_radians solar_zenith).

Definition Ai : Q :=
  beam_radiation / (solar_radiation * np_cos (np_radians solar_zenith)).

Definition beam_radiation_HDKR : Q :=
  (beam_radiation + diffuse_radiation * Ai) * Rb.

Definition f : Q := np_sqrt (beam_radiation / G_horizontal_radiation).

Definition diffuse_radiation_HDKR : Q :=
  diffuse_radiation * (1 - Ai) * ((1 + np_cos (np_radians tilt)) / 2)
  * (1 + f * np_sin (np_radians (tilt / 2)) ^ 3).

Definition diffuse_radiation_reflected : Q :=
  G_horizontal_radiation * ground_reflectance
  * ((1 - np_cos (np_radians tilt)) / 2).

Definition s_radiation : Q :=
  beam_radiation_HDKR + diffuse_radiation_HDKR + diffuse_radiation_reflected.

Definition radiation_slope_surface : Q :=
  if (Qeq_bool G_horizontal_radiation 0 || Qltb solar_zenith 0)%bool then 0
  else s_radiation.

End RadiationSlopeSurface.

(** The call [self.radiation_slope_surface(d, h, GHR, sza)] with the
    defaults of the other parameters. *)
Definition radiation_slope_surface_default {np : NumpyOps}
    (day time G_horizontal_radiation solar_zenith : Q) : Q :=
  radiation_slope_surface day time G_horizontal_radiation solar_zenith
    33.9009 35.4811 2%Z None 0 0.6.

(** *** Irradiance for every row *)

(** [d[key] = value] on a dictionary kept in insertion order; the keys
    used here are all present. *)
Fixpoint dict_set (key : string) (value : option string)
    (d : list (string * option string)) : list (string * option string) :=
  match d with
  | [] => [(key, value)]
  | (k, v) :: rest =>
      if String.eqb k key then (k, value) :: rest
      else (k, v) :: dict_set key value rest
  end.

Definition required_columns_dict : list (string * option string) :=
  map (fun k => (k, None)) required_columns.

(** The two nested [for] loops that fill the dictionary. *)
Definition resolve_columns (cols : list string)
  : list (string * option string) :=
  fold_left
    (fun d col =>
       fold_left
         (fun d' req =>
            if py_in req (lower col) then dict_set req (Some col) d' else d')
         (map fst d) d)
    cols required_columns_dict.

(** [None in required_columns.values()], then the keys whose value is
    [None]. *)
Definition missing_columns (d : list (string * option string))
  : list string :=
  map fst
      (filter (fun kv => match snd kv with None => true | _ => false end) d).

Definition checked_columns (cols : list string)
  : result (list (string * string)) :=
  let d := resolve_columns cols in
  if existsb (fun kv => match snd kv with None => true | _ => false end) d
  then Raise (ValueError "Missing required data columns: " (missing_columns d))
  else Ok (flat_map (fun kv => match snd kv with
                               | Some c => [(fst kv, c)]
                               | None => []
                               end) d).

(** [required_columns[key]] after the check. *)
Fixpoint resolved (key : string) (d : list (string * string))
  : result string :=
  match d with
  | [] => Raise (KeyError key)
  | (k, c) :: rest => if String.eqb k key then Ok c else resolved key rest
  end.

Definition February (rows : nat) : Z :=
  if (8760 <? Z.of_nat rows)%Z then 29 else 28.

(** [year_days] of the source: the day of the last row plus the
    cumulative sum, up to and including the last row's month, minus 1. *)
Definition year_days (month day : Series) (rows : nat) : result cell :=
  d <- iloc_last day ;;
  m <- iloc_last month ;;
  i <- as_index (cell_add_int m (-1)) ;;
  c <- np_getitem
         (cumsum [31; February rows; 31; 30; 31; 30; 31; 31; 30; 31; 30; 31]%Z)
         i ;;
  Ok (cell_add_int (cell_add_int d c) (-1)).

Definition DY_per_MO (yd : cell) : list Z :=
  if Qeq_bool (cell_Q yd) 366
  then [31; 29; 31; 30; 31; 30; 31; 31; 30; 31; 30; 31]%Z
  else [31; 28; 31; 30; 31; 30; 31; 31; 30; 31; 30; 31]%Z.

Definition cum_days (dy : list Z) : list Z := array_sub (cumsum dy) dy.

(** [day + cum_days[month - 1]], row by row. *)
Definition day_of_year (month day : Series) (dy : list Z) : result Series :=
  offsets <- mapM (fun m => i <- as_index (cell_add_int m (-1)) ;;
                            np_getitem (cum_days dy) i) month ;;
  Ok (map2 cell_add_int day offsets).

Definition calculate_irradiance_vector {np : NumpyOps} (self : t)
  : result (t * DataFrame) :=
  let data := irradiance_data self in
  cols <- checked_columns (columns data) ;;
  month <- (c <- resolved "month" cols ;; getitem data c) ;;
  day <- (c <- resolved "day" cols ;; getitem data c) ;;
  hour <- (c <- resolved "hour" cols ;; getitem data c) ;;
  horizontal_irradiance <-
    (c <- resolved "horizontal irradiance" cols ;; getitem data c) ;;
  solar_zenith <- (c <- resolved "solar zenith" cols ;; getitem data c) ;;
  yd <- year_days month day (len data) ;;
  doy <- day_of_year month day (DY_per_MO yd) ;;
  irradiance <-
    mapM (fun t =>
            d <- iloc doy t ;;
            h <- iloc hour t ;;
            sza <- iloc solar_zenith t ;;
            GHR <- iloc horizontal_irradiance t ;;
            Ok (CFloat (radiation_slope_surface_default
                          (cell_Q d) (cell_Q h) (cell_Q GHR) (cell_Q sza))))
         (seq 0 (len data)) ;;
  let df := setitem data "Calculated_Irradiance" irradiance in
  Ok (with_irradiance_data df self, df).

End PVPanel.

(** ** pv_panel.py: [radiation_slope_surface] call by call

    The same method with the numpy functions as calls that can fail, so
    that which calls are made, and in which order, is part of the
    definition: an implementation of [NumpyCalls] may raise on any
    argument, and the first call that raises ends the method. *)

Class NumpyCalls : Type := {
  call_cos : Q -> result Q;
  call_sin : Q -> result Q;
  call_arccos : Q -> result Q;
  call_sqrt : Q -> result Q;
  call_radians : Q -> result Q;
  call_degrees : Q -> result Q
}.

(** An implementation all of whose functions return. *)
Definition returning (np : NumpyOps) : NumpyCalls := {|
  call_cos := fun x => Ok (np_cos x);
  call_sin := fun x => Ok (np_sin x);
  call_arccos := fun x => Ok (np_arccos x);
  call_sqrt := fun x => Ok (np_sqrt x);
  call_radians := fun x => Ok (np_radians x);
  call_degrees := fun x => Ok (np_degrees x)
|}.

(** An implementation all of whose functions raise. *)
Definition raising (e : exn) : NumpyCalls := {|
  call_cos := fun _ => Raise e;
  call_sin := fun _ => Raise e;
  call_arccos := fun _ => Raise e;
  call_sqrt := fun _ => Raise e;
  call_radians := fun _ => Raise e;
  call_degrees := fun _ => Raise e
|}.

Module PVPanelCalls.

Section RadiationSlopeSurface.

Context {np : NumpyCalls}.

Variables (day time G_horizontal_radiation solar_zenith : Q).
Variables (longitude latitude : Q) (timezone_index : Z).
Variable tilt_angle : option Q.
Variables (surface_azim ground_reflectance : Q).

(** [np.cos(np.radians(x))] and [np.sin(np.radians(x))]: the inner call
    is made first. *)
Definition cos_radians (x : Q) : result Q :=
  r <- call_radians x ;; call_cos r.

Definition sin_radians (x : Q) : result Q :=
  r <- call_radians x ;; call_sin r.

(** The statements of the method in their order.  Every numpy call of
    the source is one step, at the place where Python evaluates it:
    operands from left to right, arguments before the call.  The
    divisions have a numpy float on one side, or a divisor that the guard
    has shown not to be zero, and do not raise. *)
Definition radiation_slope_surface : result Q :=
  let tilt_angle :=
    match tilt_angle with
    | None => latitude
    | Some a => a
    end in
  if (Qeq_bool G_horizontal_radiation 0 || Qltb solar_zenith 0)%bool then Ok 0
  else
    let longit_zone := 15 * inject_Z timezone_index in
    let b := (day - 1) * (360 / 365) in
    e1 <- cos_radians b ;;
    e2 <- sin_radians b ;;
    e3 <- cos_radians (2 * b) ;;
    e4 <- sin_radians (2 * b) ;;
    let e := 229.2 * (0.000075 + 0.001868 * e1 - 0.032077 * e2
                      - 0.014615 * e3 - 0.04089 * e4) in
    let t_solar := time + (4 * (longitude - longit_zone) + e) / 60 in
    d1 <- sin_radians (360 * (284 + day) / 365) ;;
    let delta := 23.45 * d1 in
    let sign := if Qle_bool 12 t_solar then 1 else -1 in
    a1 <- cos_radians solar_zenith ;;
    a2 <- sin_radians latitude ;;
    a3 <- sin_radians delta ;;
    a4 <- sin_radians solar_zenith ;;
    a5 <- cos_radians latitude ;;
    a6 <- call_arccos ((a1 * a2 - a3) / (a4 * a5)) ;;
    a7 <- call_degrees a6 ;;
    let solar_azimuth := sign * Qabs a7 in
    t1 <- cos_radians solar_zenith ;;
    t2 <- cos_radians tilt_angle ;;
    t3 <- sin_radians solar_zenith ;;
    t4 <- sin_radians tilt_angle ;;
    t5 <- cos_radians (solar_azimuth - surface_azim) ;;
    let theta := t1 * t2 + t3 * t4 * t5 in
    let Gsc := 1367 in
    s1 <- cos_radians b ;;
    s2 <- sin_radians b ;;
    s3 <- cos_radians (2 * b) ;;
    s4 <- sin_radians (2 * b) ;;
    let solar_radiation :=
      Gsc * (1.000110 + 0.034221 * s1 + 0.001280 * s2 + 0.000719 * s3
             + 0.000077 * s4) in
    k1 <- cos_radians solar_zenith ;;
    let clearness_index := G_horizontal_radiation / (solar_radiation * k1) in
    let Ro_d := PVPanel.Ro_d_of clearness_index in
    let diffuse_radiation := Ro_d * G_horizontal_radiation in
    let beam_radiation := (1 - Ro_d) * G_horizontal_radiation in
    r1 <- cos_radians theta ;;
    r2 <- cos_radians solar_zenith ;;
    let Rb := r1 / r2 in
    i1 <- cos_radians solar_zenith ;;
    let Ai := beam_radiation / (solar_radiation * i1) in
    let beam_radiation_HDKR :=
      (beam_radiation + diffuse_radiation * Ai) * Rb in
    f <- call_sqrt (beam_radiation / G_horizontal_radiation) ;;
    h1 <- cos_radians tilt_angle ;;
    h2 <- sin_radians (tilt_angle / 2) ;;
    let diffuse_radiation_HDKR :=
      diffuse_radiation * (1 - Ai) * ((1 + h1) / 2) * (1 + f * h2 ^ 3) in
    g1 <- cos_radians tilt_angle ;;
    let diffuse_radiation_reflected :=
      G_horizontal_radiation * ground_reflectance * ((1 - g1) / 2) in
    Ok (beam_radiation_HDKR + diffuse_radiation_HDKR
        + diffuse_radiation_reflected).

End RadiationSlopeSurface.

End PVPanelCalls.

(** ** diesel_gen.py *)

Module DieselGen.

Record t : Type := mk {
  capacity : Q;
  minimum_power : Q;
  _min_power_percentage : option Q;
  cost_per_kwh : Q;
  lifetime : Z;
  initial_cost : Q;
  annual_om_cost : Q
}.

(** [_set_minimum_power]: a value below 1 is a share of the capacity. *)
Definition _set_minimum_power (self : t) (value : Q) : t :=
  if Qltb value 1 then
    mk (capacity self) (capacity self * value) (Some value)
       (cost_per_kwh self) (lifetime self) (initial_cost self)
       (annual_om_cost self)
  else
    mk (capacity self) value None
       (cost_per_kwh self) (lifetime self) (initial_cost self)
       (annual_om_cost self).

Definition __init__ (capacity minimum_power cost_per_kwh : Q) (lifetime : Z)
    (initial_cost annual_om_cost : Q) : t :=
  _set_minimum_power
    (mk capacity 0 None cost_per_kwh lifetime initial_cost annual_om_cost)
    minimum_power.

Definition default : t := __init__ 10000 0.2 0.5 20%Z 200000 10000.

Definition investment_cost (self : t) (newly_installed : bool) : result Q :=
  if newly_installed then
    annual_investment_cost <-
      pydiv (initial_cost self) (inject_Z (lifetime self)) ;;
    Ok (annual_investment_cost + annual_om_cost self)
  else Ok (annual_om_cost self).

(** The attribute [investment_cost] of an instance, as it is called. *)
Definition investment_cost_method (self : t) : list pyval -> result Q :=
  call_method 1 (fun args =>
    match args with
    | [v] => investment_cost self (truthy v)
    | _ => Raise TypeError
    end).

(** Getters *)
Definition get_capacity (self : t) : Q := capacity self.
Definition get_minimum_power (self : t) : Q := minimum_power self.
Definition get_cost_per_kwh (self : t) : Q := cost_per_kwh self.

(** Setters *)
Definition set_minimum_power (self : t) (value : Q) : t :=
  _set_minimum_power self value.

(** [self.capacity = value], then, when the attribute
    [_min_power_percentage] exists, the minimum power is set again from
    it. *)
Definition set_capacity (self : t) (value : Q) : t :=
  let self1 :=
    mk value (minimum_power self) (_min_power_percentage self)
       (cost_per_kwh self) (lifetime self) (initial_cost self)
       (annual_om_cost self) in
  match _min_power_percentage self1 with
  | Some p => set_minimum_power self1 p
  | None => self1
  end.

Definition set_cost_per_kwh (self : t) (value : Q) : t :=
  mk (capacity self) (minimum_power self) (_min_power_percentage self)
     value (lifetime self) (initial_cost self) (annual_om_cost self).

(** The three setters as calls, and a sequence of calls on an object. *)
Inductive setter_call : Type :=
| CallSetCapacity (value : Q)
| CallSetMinimumPower (value : Q)
| CallSetCostPerKwh (value : Q).

Definition after (c : setter_call) (self : t) : t :=
  match c with
  | CallSetCapacity v => set_capacity self v
  | CallSetMinimumPower v => set_minimum_power self v
  | CallSetCostPerKwh v => set_cost_per_kwh self v
  end.

Definition after_all (cs : list setter_call) (self : t) : t :=
  fold_left (fun g c => after c g) cs self.

End DieselGen.

(** ** grid.py *)

Module Grid.

(** A row of the grid table; [validate_grid_data] has checked that the
    five columns exist. *)
Record row : Type := mk_row {
  month : Q;
  day : Q;
  hour : Q;
  tariff : Q;
  status : Q
}.

Record t : Type := mk { grid_data : list row }.

(** The boolean mask of the lookup, for one row. *)
Definition selected (month' day' hour' : Z) (r : row) : bool :=
  (Qeq_bool (month r) (inject_Z month')
   && Qeq_bool (day r) (inject_Z day')
   && Qeq_bool (hour r) (inject_Z hour'))%bool.

(** The returned tuple; [None] of Python is [None] here. *)
Definition get_grid_status_and_tariff (self : t) (month day hour : Z)
  : result (option Q * option Q) :=
  let record := filter (selected month day hour) (grid_data self) in
  match record with
  | [] => Ok (None, None)
  | r :: _ => Ok (Some (status r), Some (tariff r))
  end.

Definition calculate_investment_cost (self : t) : Q := 0.

(** The class defines no [investment_cost]: the attribute is the one
    inherited from [Component]. *)
Definition investment_cost_method (self : t) : list pyval -> result Q :=
  Component.investment_cost.

End Grid.

(** ** load.py *)

Module Load.

Record row : Type := mk_row {
  month : Q;
  day : Q;
  hour : Q;
  demand : Q
}.

Record t : Type := mk { load_data : list row }.

Definition selected (month' day' hour' : Z) (r : row) : bool :=
  (Qeq_bool (month r) (inject_Z month')
   && Qeq_bool (day r) (inject_Z day')
   && Qeq_bool (hour r) (inject_Z hour'))%bool.

Definition get_demand (self : t) (month day hour : Z) : option Q :=
  match filter (selected month day hour) (load_data self) with
  | [] => None
  | r :: _ => Some (demand r)
  end.

Definition investment_cost (self : t) : Q := 0.

Definition investment_cost_method (self : t) : list pyval -> result Q :=
  call_method 0 (fun _ => Ok (investment_cost self)).

End Load.

(** ** hybrid_energy_system.py *)

Module HybridEnergySystem.

Record t : Type := mk {
  pv : PVPanel.t;
  battery : Battery.t;
  diesel_gen : DieselGen.t;
  grid : Grid.t;
  load : Load.t
}.

(** The attribute [investment_cost] of a [PVPanel] and of a [Battery]
    instance.  [PVPanel] defines [calculate_investment_cost] only, so the
    name resolves to the method of [Component]. *)
Definition pv_investment_cost_method (p : PVPanel.t)
  : list pyval -> result Q :=
  Component.investment_cost.

Definition battery_investment_cost_method (b : Battery.t)
  : list pyval -> result Q :=
  call_method 1 (fun args =>
    match args with
    | [v] => r <- as_num v ;; Battery.investment_cost b r
    | _ => Raise TypeError
    end).

(** The five calls, left to right, each without arguments. *)
Definition total_investment_cost (self : t) : result Q :=
  c_pv <- pv_investment_cost_method (pv self) [] ;;
  c_battery <- battery_investment_cost_method (battery self) [] ;;
  c_diesel <- DieselGen.investment_cost_method (diesel_gen self) [] ;;
  c_grid <- Grid.investment_cost_method (grid self) [] ;;
  c_load <- Load.investment_cost_method (load self) [] ;;
  Ok (c_pv + c_battery + c_diesel + c_grid + c_load).

End HybridEnergySystem.

(** ** The cost formulas in binary64

    [Battery.investment_cost] and [PVPanel.calculate_investment_cost]
    once more, with Python's [float] as IEEE binary64 ([PrimFloat.float],
    round to nearest, ties to even) and Python's [int] as [Z].  The
    operators are the ones of Python's [float] type: an [int] operand is
    converted first, [/] raises on a zero divisor, and [**] treats its
    special cases itself before it hands over to the platform's [pow]. *)

Module Binary64.

Import PrimFloat.
Local Open Scope float_scope.

(** A Python number: an [int] or a [float]. *)
Inductive number : Type :=
| PyInt (n : Z)
| PyFloat (f : float).

(** The conversion of an [int] operand: the nearest double,
    [OverflowError] when that is beyond the largest one. *)
Definition float_of_int (n : Z) : result float :=
  let f := FloatOps.SF2Prim
             (SpecFloat.binary_normalize FloatOps.prec FloatOps.emax n 0
                                         false) in
  if is_infinity f then Raise OverflowError else Ok f.

Definition to_float (x : number) : result float :=
  match x with
  | PyInt n => float_of_int n
  | PyFloat f => Ok f
  end.

(** [a / b] on floats. *)
Definition float_div (a b : float) : result float :=
  if b =? 0 then Raise ZeroDivisionError else Ok (a / b).

(** Whether a double is an odd integer. *)
Definition is_odd_integer (x : float) : bool :=
  match FloatOps.Prim2SF x with
  | SpecFloat.S754_finite _ m e =>
      if (0 <=? e)%Z then (e =? 0)%Z && Z.odd (Z.pos m)
      else ((Z.pos m mod 2 ^ (- e) =? 0)%Z
            && Z.odd (Z.pos m / 2 ^ (- e)))%bool
  | _ => false
  end.

(** What a call of the platform's [pow] leaves in [errno]: nothing, a
    range error, or something else. *)
Inductive errno : Type :=
| ENONE
| ERANGE
| EOTHER.

(** The platform's [pow], which is not part of the repository. *)
Class Libm : Type := {
  libm_pow : float -> float -> float * errno
}.

(** [iv ** n] for a float and an [int].  The exponent is converted first;
    being a converted [int] it is finite and an integer, so the cases of
    a NaN, infinite or fractional exponent do not arise.  Then, in this
    order: exponent zero, NaN base, infinite base, zero base, the sign of
    a negative base, base one, and only then the platform's [pow], whose
    overflow is reported as [OverflowError]. *)
Definition float_pow {libm : Libm} (iv : float) (n : Z) : result float :=
  iw <- float_of_int n ;;
  if iw =? 0 then Ok 1
  else if is_nan iv then Ok iv
  else if is_infinity iv then
    if 0 <? iw then Ok (if is_odd_integer iw then iv else abs iv)
    else Ok (if is_odd_integer iw && (iv <? 0) then neg_zero else zero)
  else if iv =? 0 then
    if iw <? 0 then Raise ZeroDivisionError
    else Ok (if is_odd_integer iw then iv else zero)
  else
    let negate_result := (iv <? 0) && is_odd_integer iw in
    let iv := if iv <? 0 then - iv else iv in
    if iv =? 1 then Ok (if negate_result then - 1 else 1)
    else
      let (ix, err) := libm_pow iv iw in
      let err :=
        match err with
        | ENONE => if is_infinity ix then ERANGE else ENONE
        | ERANGE => if ix =? 0 then ENONE else ERANGE
        | EOTHER => EOTHER
        end in
      let ix := if negate_result then - ix else ix in
      match err with
      | ENONE => Ok ix
      | ERANGE => Raise OverflowError
      | EOTHER => Raise (ValueError "Numerical argument out of domain" [])
      end.

(** [(cost * interest_rate) / (1 - (1 + interest_rate) ** -lifetime)],
    the left operand of the division first. *)
Definition annual_cost {libm : Libm} (cost : number) (lifetime : Z)
    (interest_rate : float) : result float :=
  c <- to_float cost ;;
  let numerator := c * interest_rate in
  p <- float_pow (1 + interest_rate) (- lifetime) ;;
  float_div numerator (1 - p).

Module Battery.

(** The method reads [self.cost] and [self.lifetime]; they are the first
    two arguments. *)
Definition investment_cost {libm : Libm} (cost : number) (lifetime : Z)
    (interest_rate : float) : result float :=
  annual_cost cost lifetime interest_rate.

End Battery.

Module PVPanel.

Definition calculate_investment_cost {libm : Libm} (cost : number)
    (lifetime : Z) (interest_rate : float) : result float :=
  if negb ((0 <? interest_rate) && (interest_rate <? 1)) then
    Raise (ValueError "Interest rate should be a decimal between 0 and 1." [])
  else annual_cost cost lifetime interest_rate.

End PVPanel.


End Binary64.

(** ** Concrete data used by the examples *)

Module Examples.

(** Values of the numpy functions at the angle 0, which is the only
    angle that the examples on the clearness index evaluate them at:
    [cos 0 = 1], [sin 0 = 0], [radians 0 = 0]. *)
Definition np_at_zero : NumpyOps := {|
  np_cos := fun _ => 1;
  np_sin := fun _ => 0;
  np_arccos := fun _ => 0;
  np_sqrt := fun x => x;
  np_radians := fun x => x;
  np_degrees := fun x => x
|}.

(** Horizontal irradiance giving a clearness index of 0.75, of 0.35 and
    of 0.9 on day 1 with the sun at the zenith. *)
Definition G_at (kt : Q) : Q := kt * (1367 * 1.03505).

(** The battery that the constructor builds from its defaults. *)
Definition battery0 : Battery.t :=
  Battery.mk (2 # 10) (9 # 10) (5 # 10) (95 # 100) (95 # 100) 100 4
             (100 / 4) 10%Z 10000.

(** The same battery after [set_capacity(200)], and then after
    [set_min_charging_time(5)]. *)
Definition battery1 : Battery.t := fst (Battery.set_capacity battery0 200).
Definition battery2 : Battery.t :=
  fst (Battery.set_min_charging_time battery1 5).

(** A weather frame of two rows that already carries the computed
    irradiance, and the panel built on it with the default parameters. *)
Definition weather : Pandas.DataFrame :=
  [("Month", [Pandas.CInt 6; Pandas.CInt 6]);
   ("Day", [Pandas.CInt 21; Pandas.CInt 21]);
   ("Hour", [Pandas.CInt 0; Pandas.CInt 12]);
   ("Horizontal Irradiance", [Pandas.CFloat 0; Pandas.CFloat 850]);
   ("Temperature", [Pandas.CFloat 18.5; Pandas.CFloat 29]);
   ("Solar Zenith", [Pandas.CFloat 120; Pandas.CFloat 12.5]);
   ("Calculated_Irradiance", [Pandas.CFloat 0; Pandas.CFloat 900])]%string.

Definition panel : PVPanel.t :=
  PVPanel.mk weather 1000.0 800.0 25.0 43 25.0 (- 0.34 * 1e-2) 555.0
             25%Z 750.0.

(** A grid table in which the hour (1, 1, 1) occurs twice. *)
Definition grid : Grid.t :=
  Grid.mk [Grid.mk_row 1 1 0 0.10 0;
           Grid.mk_row 1 1 1 0.12 1;
           Grid.mk_row 1 1 1 0.30 0;
           Grid.mk_row 1 1 2 0.15 1].

(** The hourly rows of a whole leap year: 24 rows for each day of each
    month, 8784 rows in all. *)
Definition month_rows (m : Z) (days : nat) : list (Z * Z) :=
  flat_map (fun d => repeat (m, Z.of_nat d) 24) (seq 1 days).

Definition leap_year_rows : list (Z * Z) :=
  flat_map (fun md => month_rows (fst md) (snd md))
    [(1%Z, 31%nat); (2%Z, 29%nat); (3%Z, 31%nat); (4%Z, 30%nat);
     (5%Z, 31%nat); (6%Z, 30%nat); (7%Z, 31%nat); (8%Z, 31%nat);
     (9%Z, 30%nat); (10%Z, 31%nat); (11%Z, 30%nat); (12%Z, 31%nat)].

Definition leap_month : Pandas.Series :=
  map (fun md => Pandas.CInt (fst md)) leap_year_rows.

Definition leap_day : Pandas.Series :=
  map (fun md => Pandas.CInt (snd md)) leap_year_rows.

(** The first row of 1 March in that year: 31 + 29 days of 24 rows
    precede it. *)
Definition first_row_of_march : nat := 1440.

(** Column labels in which both [Day] and [Weekday] contain the token
    [day]. *)
Definition labels_with_weekday : list string :=
  ["Month"; "Day"; "Weekday"; "Hour"; "Horizontal Irradiance";
   "Temperature"; "Solar Zenith"]%string.

(** Column labels without a temperature and without a solar zenith. *)
Definition labels_incomplete : list string :=
  ["Month"; "Day"; "Hour"; "Horizontal Irradiance"]%string.

(** The default battery after [set_min_charging_time(0)]. *)
Definition battery_zero_time : Battery.t :=
  fst (Battery.set_min_charging_time battery0 0).

(** A load table in which the hour (3, 1, 8) occurs twice. *)
Definition load : Load.t :=
  Load.mk [Load.mk_row 3 1 7 40;
           Load.mk_row 3 1 8 42.5;
           Load.mk_row 3 1 8 99].

(** A weather frame with the six columns and no row, and the panel built
    on it. *)
Definition empty_weather : Pandas.DataFrame :=
  [("month", []); ("day", []); ("hour", []);
   ("horizontal irradiance", []); ("temperature", []);
   ("solar zenith", [])]%string.

Definition panel_empty : PVPanel.t :=
  PVPanel.mk empty_weather 1000.0 800.0 25.0 43 25.0 (- 0.34 * 1e-2) 555.0
             25%Z 750.0.

End Examples.

(** ** Vocabulary of the statements *)

(** A grid row has exactly the month, day and hour asked for. *)
Definition grid_row_matches (r : Grid.row) (month day hour : Z) : Prop :=
  Grid.month r == inject_Z month /\
  Grid.day r == inject_Z day /\
  Grid.hour r == inject_Z hour.

(** A column label carries a token: the token occurs in the lower-cased
    label. *)
Definition carries (token label : string) : bool := py_in token (lower label).

(** The first and the last label of a frame that carry a token. *)
Definition first_carrying (token : string) (cols : list string)
  : option string :=
  find (carries token) cols.

Definition last_carrying (token : string) (cols : list string)
  : option string :=
  find (carries token) (rev cols).

Definition is_none {A : Type} (o : option A) : bool :=
  match o with None => true | Some _ => false end.

(** The required tokens that no label carries, in the order of the
    dictionary. *)
Definition not_carried (cols : list string) : list string :=
  filter (fun k => negb (existsb (carries k) cols)) PVPanel.required_columns.

(** The annuity formula that [PVPanel.calculate_investment_cost] and
    [Battery.investment_cost] both write out. *)
Definition annuity (c : Q) (l : Z) (r : Q) : Q :=
  (c * r) / (1 - (1 + r) ^ (- l)).

(** Powers with a natural exponent, and the sum [1 + x + ... + x^(n-1)]
    in Horner form. *)
Fixpoint pw (x : Q) (n : nat) : Q :=
  match n with O => 1 | S n' => x * pw x n' end.

Fixpoint geo (x : Q) (n : nat) : Q :=
  match n with O => 0 | S n' => 1 + x * geo x n' end.

(** [x + x^2 + ... + x^n]: with [x = 1 / (1 + r)] this is the present
    value of [n] yearly payments of 1. *)
Definition discount_sum (x : Q) (n : nat) : Q := x * geo x n.

(** How close the rate must be to 0. *)
Definition rate_bound (c eps N : Q) : Q :=
  Qmin (1 / (2 * (N + 1))) (eps * N / (2 * c * (N + 1))).

(** A load row has exactly the month, day and hour asked for. *)
Definition load_row_matches (r : Load.row) (month day hour : Z) : Prop :=
  Load.month r == inject_Z month /\
  Load.day r == inject_Z day /\
  Load.hour r == inject_Z hour.

Definition keeps_minimum_power (c : DieselGen.setter_call) : Prop :=
  match c with
  | DieselGen.CallSetMinimumPower _ => False
  | _ => True
  end.

Definition share_consistent (g : DieselGen.t) : Prop :=
  match DieselGen._min_power_percentage g with
  | Some p => p < 1 /\ DieselGen.minimum_power g = DieselGen.capacity g * p
  | None => True
  end.

(** Total length of the months before month [m] in a table of month
    lengths. *)
Definition preceding_days (dy : list Z) (m : Z) : Z :=
  fold_right Z.add 0%Z (firstn (Z.to_nat (m - 1)) dy).

(** The month that an integer month cell is read as: numpy counts an
    index below 0 from the end of the table. *)
Definition month_read_as (m : Z) : Z := if (m <=? 0)%Z then (m + 12)%Z else m.

Definition month_in_table (c : Pandas.cell) : Prop :=
  exists m, c = Pandas.CInt m /\ (-11 <= m <= 12)%Z.

Definition calendar_month (c : Pandas.cell) : Prop :=
  exists m, c = Pandas.CInt m /\ (1 <= m <= 12)%Z.


(** The two tables of month lengths. *)
Definition table28 : list Z :=
  [31; 28; 31; 30; 31; 30; 31; 31; 30; 31; 30; 31]%Z.
Definition table29 : list Z :=
  [31; 29; 31; 30; 31; 30; 31; 31; 30; 31; 30; 31]%Z.

(** A frame as pandas builds it from a table: the labels are distinct
    and every column has one value per row. *)
Definition wf_frame (df : Pandas.DataFrame) : Prop :=
  NoDup (Pandas.columns df) /\
  Forall (fun c => List.length (snd c) = Pandas.len df) df.

Definition CI : string := "Calculated_Irradiance".

(** * Properties *)

(** ** Comparisons and arithmetic *)

Lemma Qltb_lt (a b : Q) : Qltb a b = true <-> a < b.
Proof.
  unfold Qltb. rewrite negb_true_iff. split.
  - intros H. apply Qnot_le_lt. intros Hle.
    apply Qle_bool_iff in Hle. congruence.
  - intros H. destruct (Qle_bool b a) eqn:E; [|reflexivity].
    apply Qle_bool_iff in E. apply Qlt_not_le in H. contradiction.
Qed.

Lemma Qltb_ge (a b : Q) : Qltb a b = false <-> b <= a.
Proof.
  unfold Qltb. rewrite negb_false_iff. apply Qle_bool_iff.
Qed.

Lemma Qeq_bool_false_neq (a b : Q) : Qeq_bool a b = false <-> ~ a == b.
Proof.
  split.
  - intros H Heq. apply Qeq_bool_iff in Heq. congruence.
  - intros H. destruct (Qeq_bool a b) eqn:E; [|reflexivity].
    apply Qeq_bool_iff in E. contradiction.
Qed.



(** ** The diffuse fraction *)

Lemma Ro_d_of_low (kt : Q) :
  kt <= 0.35 -> PVPanel.Ro_d_of kt = 1 - 0.249 * kt.
Proof.
  intros H. unfold PVPanel.Ro_d_of.
  apply Qle_bool_iff in H. now rewrite H.
Qed.

Lemma Ro_d_of_high (kt : Q) :
  0.75 < kt -> PVPanel.Ro_d_of kt = 0.177.
Proof.
  intros H. unfold PVPanel.Ro_d_of.
  assert (Hlow : Qle_bool kt 0.35 = false).
  { destruct (Qle_bool kt 0.35) eqn:E; [|reflexivity].
    apply Qle_bool_iff in E. lra. }
  rewrite Hlow. apply Qltb_lt in H. now rewrite H.
Qed.

Lemma Ro_d_of_middle (kt : Q) :
  0.35 < kt -> kt <= 0.75 -> PVPanel.Ro_d_of kt = 1.557 - 1.84 * kt.
Proof.
  intros Hlo Hhi. unfold PVPanel.Ro_d_of.
  assert (Hlow : Qle_bool kt 0.35 = false).
  { destruct (Qle_bool kt 0.35) eqn:E; [|reflexivity].
    apply Qle_bool_iff in E. lra. }
  rewrite Hlow. apply Qltb_ge in Hhi. now rewrite Hhi.
Qed.

(** C1.  Whatever clearness index [kt] the function computes from its
    arguments, the diffuse fraction [Ro_d] is [1 - 0.249 * kt] when
    [kt <= 0.35], is the constant [0.177] when [kt > 0.75], and is
    [1.557 - 1.84 * kt] when [0.35 < kt <= 0.75]; a clearness index equal
    to 0.35 takes the first formula and one equal to 0.75 the linear third
    formula. *)
Theorem C1_diffuse_fraction_branches
    (np : NumpyOps) (day G_horizontal_radiation solar_zenith : Q) :
  let kt := PVPanel.clearness_index day G_horizontal_radiation solar_zenith in
  let Ro_d := PVPanel.Ro_d day G_horizontal_radiation solar_zenith in
  (kt <= 0.35 -> Ro_d = 1 - 0.249 * kt) /\
  (0.75 < kt -> Ro_d = 0.177) /\
  (0.35 < kt /\ kt <= 0.75 -> Ro_d = 1.557 - 1.84 * kt) /\
  (kt == 0.35 -> Ro_d = 1 - 0.249 * kt) /\
  (kt == 0.75 -> Ro_d = 1.557 - 1.84 * kt).
Proof.
  intros kt Ro_d. unfold Ro_d, PVPanel.Ro_d. fold kt.
  repeat split.
  - apply Ro_d_of_low.
  - apply Ro_d_of_high.
  - intros [Hlo Hhi]. now apply Ro_d_of_middle.
  - intros H. apply Ro_d_of_low. rewrite H. apply Qle_refl.
  - intros H. apply Ro_d_of_middle; rewrite H.
    + reflexivity.
    + apply Qle_refl.
Qed.

Lemma C1_diffuse_fraction_branches_witness :
  (PVPanel.clearness_index (np := Examples.np_at_zero)
     1 (Examples.G_at 0.35) 0 == 0.35 /\
   PVPanel.Ro_d (np := Examples.np_at_zero) 1 (Examples.G_at 0.35) 0
   = 1 - 0.249 * PVPanel.clearness_index (np := Examples.np_at_zero)
                   1 (Examples.G_at 0.35) 0) /\
  (0.75 < PVPanel.clearness_index (np := Examples.np_at_zero)
            1 (Examples.G_at 0.9) 0 /\
   PVPanel.Ro_d (np := Examples.np_at_zero) 1 (Examples.G_at 0.9) 0
   = 0.177) /\
  (PVPanel.clearness_index (np := Examples.np_at_zero)
     1 (Examples.G_at 0.75) 0 == 0.75 /\
   PVPanel.Ro_d (np := Examples.np_at_zero) 1 (Examples.G_at 0.75) 0
   = 1.557 - 1.84 * PVPanel.clearness_index (np := Examples.np_at_zero)
                      1 (Examples.G_at 0.75) 0).
Proof.
  split; [|split].
  - split; [reflexivity|].
    apply (C1_diffuse_fraction_branches
             Examples.np_at_zero 1 (Examples.G_at 0.35) 0).
    reflexivity.
  - split; [reflexivity|].
    apply (C1_diffuse_fraction_branches
             Examples.np_at_zero 1 (Examples.G_at 0.9) 0).
    reflexivity.
  - split; [reflexivity|].
    apply (C1_diffuse_fraction_branches
             Examples.np_at_zero 1 (Examples.G_at 0.75) 0).
    reflexivity.
Defined.

(** ** The guard of [radiation_slope_surface] *)

(** With numpy functions that return, the call-by-call method returns
    what [PVPanel.radiation_slope_surface] computes. *)
Lemma calls_agree_when_numpy_returns
    (np : NumpyOps)
    (day time G_horizontal_radiation solar_zenith longitude latitude : Q)
    (timezone_index : Z) (tilt_angle : option Q)
    (surface_azim ground_reflectance : Q) :
  PVPanelCalls.radiation_slope_surface (np := returning np)
    day time G_horizontal_radiation solar_zenith longitude latitude
    timezone_index tilt_angle surface_azim ground_reflectance
  = Ok (PVPanel.radiation_slope_surface day time G_horizontal_radiation
          solar_zenith longitude latitude timezone_index tilt_angle
          surface_azim ground_reflectance).
Proof.
  unfold PVPanelCalls.radiation_slope_surface,
    PVPanel.radiation_slope_surface.
  destruct (Qeq_bool G_horizontal_radiation 0 || Qltb solar_zenith 0)%bool;
    reflexivity.
Qed.

(** Past the guard the numpy functions are called: when they raise, the
    method raises. *)
Lemma numpy_is_called_past_the_guard
    (e : exn)
    (day time G_horizontal_radiation solar_zenith longitude latitude : Q)
    (timezone_index : Z) (tilt_angle : option Q)
    (surface_azim ground_reflectance : Q) :
  ~ G_horizontal_radiation == 0 -> 0 <= solar_zenith ->
  PVPanelCalls.radiation_slope_surface (np := raising e)
    day time G_horizontal_radiation solar_zenith longitude latitude
    timezone_index tilt_angle surface_azim ground_reflectance
  = Raise e.
Proof.
  intros HG Hz. unfold PVPanelCalls.radiation_slope_surface.
  apply Qeq_bool_false_neq in HG. apply Qltb_ge in Hz.
  rewrite HG, Hz. reflexivity.
Qed.

(** C2.  With a horizontal irradiance equal to 0, or with a negative
    solar zenith, [radiation_slope_surface] returns 0, whatever the other
    arguments are, and it returns before any numpy function is called:
    the call returns 0 and raises nothing for every implementation of the
    numpy functions, among them one in which each of the six functions
    raises on every argument. *)
Theorem C2_guard_returns_before_numpy
    (np : NumpyCalls)
    (day time G_horizontal_radiation solar_zenith longitude latitude : Q)
    (timezone_index : Z) (tilt_angle : option Q)
    (surface_azim ground_reflectance : Q) :
  G_horizontal_radiation == 0 \/ solar_zenith < 0 ->
  PVPanelCalls.radiation_slope_surface day time G_horizontal_radiation
    solar_zenith longitude latitude timezone_index tilt_angle surface_azim
    ground_reflectance = Ok 0.
Proof.
  intros H. unfold PVPanelCalls.radiation_slope_surface.
  destruct H as [H | H].
  - apply Qeq_bool_iff in H. now rewrite H.
  - apply Qltb_lt in H. rewrite H. now rewrite orb_true_r.
Qed.

Lemma C2_guard_returns_before_numpy_witness :
  PVPanelCalls.radiation_slope_surface (np := raising TypeError)
    172 12 0 30 33.9009 35.4811 2 None 0 0.6 = Ok 0 /\
  PVPanelCalls.radiation_slope_surface (np := raising TypeError)
    172 12 500 (-5) 33.9009 35.4811 2 (Some 20) 0 0.6 = Ok 0.
Proof.
  split.
  - apply (C2_guard_returns_before_numpy (raising TypeError)).
    left. reflexivity.
  - apply (C2_guard_returns_before_numpy (raising TypeError)).
    right. reflexivity.
Defined.

(** ** Battery: the maximum power follows capacity and charging time *)

Lemma power_consistent_iff (b : Battery.t) :
  Battery.power_consistent b <->
  ~ Battery.min_charging_time b == 0 /\
  Battery.P_B_max b = Battery.capacity b / Battery.min_charging_time b.
Proof.
  unfold Battery.power_consistent, pydiv.
  destruct (Qeq_bool (Battery.min_charging_time b) 0) eqn:E.
  - split; [discriminate|].
    intros [Hne _]. apply Qeq_bool_iff in E. contradiction.
  - apply Qeq_bool_false_neq in E. split.
    + intros H. injection H as H. now split.
    + intros [_ H]. now rewrite H.
Qed.

Lemma set_capacity_ok (b b' : Battery.t) (v : Q) :
  Battery.set_capacity b v = (b', Ok tt) -> Battery.power_consistent b'.
Proof.
  unfold Battery.set_capacity, Battery.power_consistent.
  destruct (pydiv _ _) as [p|e] eqn:E; intros H; inversion H; subst.
  exact E.
Qed.

Lemma set_min_charging_time_ok (b b' : Battery.t) (v : Q) :
  Battery.set_min_charging_time b v = (b', Ok tt) ->
  Battery.power_consistent b'.
Proof.
  unfold Battery.set_min_charging_time, Battery.power_consistent.
  destruct (pydiv _ _) as [p|e] eqn:E; intros H; inversion H; subst.
  exact E.
Qed.

Lemma init_ok (s1 s2 s3 e1 e2 cap mct : Q) (life : Z) (c : Q) (b : Battery.t) :
  Battery.__init__ s1 s2 s3 e1 e2 cap mct life c = Ok b ->
  Battery.power_consistent b.
Proof.
  unfold Battery.__init__, Battery.power_consistent, bind.
  destruct (pydiv cap mct) as [p|e] eqn:E; intros H; inversion H; subst.
  exact E.
Qed.

(** C10, as the code has it.  After a construction that succeeds, and
    after every call of [set_capacity] or [set_min_charging_time] that
    returns, [P_B_max] equals [capacity / min_charging_time]; no other
    method of the class changes [P_B_max]. *)
Theorem C10_P_B_max_after_returning_calls :
  (forall s1 s2 s3 e1 e2 cap mct life c b,
      Battery.__init__ s1 s2 s3 e1 e2 cap mct life c = Ok b ->
      Battery.power_consistent b) /\
  (forall b v b',
      Battery.set_capacity b v = (b', Ok tt) -> Battery.power_consistent b') /\
  (forall b v b',
      Battery.set_min_charging_time b v = (b', Ok tt) ->
      Battery.power_consistent b') /\
  (forall c b, Battery.P_B_max (Battery.after c b) = Battery.P_B_max b).
Proof.
  split; [|split; [|split]].
  - intros s1 s2 s3 e1 e2 cap mct life c b. apply init_ok.
  - intros b v b'. apply set_capacity_ok.
  - intros b v b'. apply set_min_charging_time_ok.
  - intros c b. destruct c; reflexivity.
Qed.

Lemma C10_P_B_max_after_returning_calls_witness :
  Battery.default = Ok Examples.battery0 /\
  Battery.power_consistent Examples.battery0 /\
  Battery.set_capacity Examples.battery0 200 = (Examples.battery1, Ok tt) /\
  Battery.power_consistent Examples.battery1 /\
  Battery.set_min_charging_time Examples.battery1 5
  = (Examples.battery2, Ok tt) /\
  Battery.power_consistent Examples.battery2 /\
  Battery.P_B_max Examples.battery2 == 40.
Proof.
  destruct C10_P_B_max_after_returning_calls as (Hinit & Hcap & Hmct & _).
  split; [reflexivity|].
  split.
  { apply (Hinit (2 # 10) (9 # 10) (5 # 10) (95 # 100) (95 # 100)
                 100 4 10%Z 10000).
    reflexivity. }
  split; [reflexivity|].
  split; [apply (Hcap Examples.battery0 200); reflexivity|].
  split; [reflexivity|].
  split; [apply (Hmct Examples.battery1 5); reflexivity|].
  reflexivity.
Defined.

(** C10 as stated fails: [set_min_charging_time(0)] on the default
    battery stores 0, then raises in the division, and leaves [P_B_max]
    at its old value 25 while [capacity / min_charging_time] cannot be
    evaluated. *)
Lemma C10_set_min_charging_time_zero :
  Battery.default = Ok Examples.battery0 /\
  Battery.set_min_charging_time Examples.battery0 0
  = (Examples.battery_zero_time, Raise ZeroDivisionError) /\
  Battery.min_charging_time Examples.battery_zero_time = 0 /\
  Battery.P_B_max Examples.battery_zero_time == 25 /\
  ~ Battery.power_consistent Examples.battery_zero_time.
Proof.
  split; [reflexivity|].
  split; [reflexivity|].
  split; [reflexivity|].
  split; [reflexivity|].
  intros H. apply power_consistent_iff in H. destruct H as [H _].
  apply H. reflexivity.
Qed.

(** ** Annuity cost: validation of the interest rate *)

Lemma pv_cost_rejects (p : PVPanel.t) (r : Q) :
  ~ (0 < r /\ r < 1) ->
  PVPanel.calculate_investment_cost p r
  = Raise (ValueError "Interest rate should be a decimal between 0 and 1." []).
Proof.
  intros H. unfold PVPanel.calculate_investment_cost.
  destruct (Qltb 0 r) eqn:E0; destruct (Qltb r 1) eqn:E1; try reflexivity.
  apply Qltb_lt in E0, E1. exfalso. apply H. now split.
Qed.

(** C4 fails on the battery.  [Battery.investment_cost] has no check of
    the interest rate: with rate 1 the default battery returns
    10240000/1023, with rate 2 it returns a value as well, and with rate 0
    it raises [ZeroDivisionError] from the division, whereas the PV panel
    raises its [ValueError] at each of these rates. *)
Theorem C4_battery_rate_not_validated :
    Battery.default = Ok Examples.battery0 /\
    (exists v, Battery.investment_cost Examples.battery0 1 = Ok v /\
               v == 10240000 # 1023) /\
    (exists v, Battery.investment_cost Examples.battery0 2 = Ok v /\
               v == 1180980000 # 59048) /\
    Battery.investment_cost Examples.battery0 0 = Raise ZeroDivisionError /\
    (forall p r, (r == 0 \/ r == 1 \/ r == 2) ->
       PVPanel.calculate_investment_cost p r
       = Raise (ValueError
                  "Interest rate should be a decimal between 0 and 1." [])).
Proof.
  split; [reflexivity|].
  split; [eexists; split; reflexivity|].
  split; [eexists; split; reflexivity|].
  split; [reflexivity|].
  intros p r H. apply pv_cost_rejects. intros [H0 H1].
  destruct H as [H | [H | H]]; rewrite H in *; lra.
Qed.

(** ** Power output *)

Lemma existsb_eqb_In (name : string) (l : list string) :
  In name l -> existsb (String.eqb name) l = true.
Proof.
  intros H. apply existsb_exists. exists name. split; [exact H|].
  apply String.eqb_refl.
Qed.

Lemma getitem_In (df : Pandas.DataFrame) (name : string) :
  In name (Pandas.columns df) -> exists s, Pandas.getitem df name = Ok s.
Proof.
  induction df as [|[c s] rest IH]; simpl; [contradiction|].
  intros [H | H].
  - subst. rewrite String.eqb_refl. now exists s.
  - destruct (String.eqb c name); [now exists s | now apply IH].
Qed.

(** C5 fails on every panel.  The method reads [self.TCN] and
    [self.b_p], names that the constructor never assigns (it assigns
    [TC_N] and [Beta_p]): on a frame that has the [Calculated_Irradiance]
    and [Temperature] columns the call raises [AttributeError] at the
    first of them, and no [Power_Output] column is produced. *)
Theorem C5_power_output_raises (self : PVPanel.t) :
  In "Calculated_Irradiance"%string
     (Pandas.columns (PVPanel.irradiance_data self)) ->
  In "Temperature"%string
     (Pandas.columns (PVPanel.irradiance_data self)) ->
  PVPanel.calculate_power_output self = Raise (AttributeError "TCN").
Proof.
  intros Hirr Htemp. unfold PVPanel.calculate_power_output.
  rewrite (existsb_eqb_In _ _ Hirr). simpl negb. cbv iota.
  destruct (getitem_In _ _ Hirr) as [s1 H1].
  destruct (getitem_In _ _ Htemp) as [s2 H2].
  rewrite H1, H2. reflexivity.
Qed.

Lemma C5_power_output_raises_witness :
  PVPanel.__init__default Examples.weather = Ok Examples.panel /\
  PVPanel.calculate_power_output Examples.panel
  = Raise (AttributeError "TCN").
Proof.
  split; [reflexivity|].
  apply (C5_power_output_raises Examples.panel).
  - simpl. tauto.
  - simpl. tauto.
Defined.

(** ** System total *)

(** C6 fails on every system.  [total_investment_cost] calls
    [investment_cost()] without arguments on each component; the first
    call, on the PV panel, reaches the abstract method of [Component] and
    raises [NotImplementedError], so no sum is returned.  The calls on the
    battery and on the diesel generator would raise [TypeError] for the
    missing argument, and the grid has no [investment_cost] of its own
    either; only the load returns its 0. *)
Theorem C6_total_investment_cost_raises (self : HybridEnergySystem.t) :
  HybridEnergySystem.total_investment_cost self = Raise NotImplementedError /\
  HybridEnergySystem.battery_investment_cost_method
    (HybridEnergySystem.battery self) [] = Raise TypeError /\
  DieselGen.investment_cost_method
    (HybridEnergySystem.diesel_gen self) [] = Raise TypeError /\
  Grid.investment_cost_method
    (HybridEnergySystem.grid self) [] = Raise NotImplementedError /\
  Load.investment_cost_method (HybridEnergySystem.load self) [] = Ok 0.
Proof.
  repeat split.
Qed.

(** ** Grid lookup *)

Lemma selected_matches (r : Grid.row) (month day hour : Z) :
  Grid.selected month day hour r = true <-> grid_row_matches r month day hour.
Proof.
  unfold Grid.selected, grid_row_matches.
  rewrite !andb_true_iff, !Qeq_bool_iff. tauto.
Qed.

Lemma filter_first {A : Type} (p : A -> bool) (pre post : list A) (r : A) :
  (forall x, In x pre -> p x = false) -> p r = true ->
  filter p (pre ++ r :: post) = r :: filter p post.
Proof.
  intros Hpre Hr. induction pre as [|x pre IH]; simpl.
  - now rewrite Hr.
  - rewrite (Hpre x (or_introl eq_refl)). apply IH.
    intros y Hy. apply Hpre. now right.
Qed.

Lemma filter_none {A : Type} (p : A -> bool) (l : list A) :
  (forall x, In x l -> p x = false) -> filter p l = [].
Proof.
  intros H. induction l as [|x l IH]; simpl; [reflexivity|].
  rewrite (H x (or_introl eq_refl)). apply IH.
  intros y Hy. apply H. now right.
Qed.

(** C8.  The lookup returns the status and tariff of the first row whose
    month, day and hour equal the three arguments; when no row does, it
    returns [(None, None)].  It returns in both cases. *)
Theorem C8_grid_lookup (self : Grid.t) (month day hour : Z) :
  (forall pre r post,
      Grid.grid_data self = pre ++ r :: post ->
      grid_row_matches r month day hour ->
      (forall x, In x pre -> ~ grid_row_matches x month day hour) ->
      Grid.get_grid_status_and_tariff self month day hour
      = Ok (Some (Grid.status r), Some (Grid.tariff r))) /\
  ((forall x, In x (Grid.grid_data self) ->
              ~ grid_row_matches x month day hour) ->
   Grid.get_grid_status_and_tariff self month day hour = Ok (None, None)).
Proof.
  unfold Grid.get_grid_status_and_tariff. split.
  - intros pre r post Hdata Hr Hpre. rewrite Hdata.
    rewrite filter_first; [reflexivity| |now apply selected_matches].
    intros x Hx. specialize (Hpre x Hx).
    destruct (Grid.selected month day hour x) eqn:E; [|reflexivity].
    apply selected_matches in E. contradiction.
  - intros Hnone. rewrite filter_none; [reflexivity|].
    intros x Hx. specialize (Hnone x Hx).
    destruct (Grid.selected month day hour x) eqn:E; [|reflexivity].
    apply selected_matches in E. contradiction.
Qed.

Lemma C8_grid_lookup_witness :
  Grid.get_grid_status_and_tariff Examples.grid 1 1 1
  = Ok (Some 1, Some 0.12) /\
  Grid.get_grid_status_and_tariff Examples.grid 7 4 9 = Ok (None, None).
Proof.
  split.
  - apply (proj1 (C8_grid_lookup Examples.grid 1 1 1)
             [Grid.mk_row 1 1 0 0.10 0]
             (Grid.mk_row 1 1 1 0.12 1)
             [Grid.mk_row 1 1 1 0.30 0; Grid.mk_row 1 1 2 0.15 1]).
    + reflexivity.
    + repeat split.
    + intros x [Hx | []]. subst x. intros (_ & _ & H). discriminate H.
  - apply (proj2 (C8_grid_lookup Examples.grid 7 4 9)).
    intros x Hx (H & _).
    simpl in Hx. destruct Hx as [Hx | [Hx | [Hx | [Hx | []]]]];
      subst x; discriminate H.
Defined.

(** ** Day of year *)

Lemma mapM_nth {A B : Type} (f : A -> result B) (l : list A) (r : list B) :
  Pandas.mapM f l = Ok r ->
  forall t a, nth_error l t = Some a ->
              exists b, f a = Ok b /\ nth_error r t = Some b.
Proof.
  revert r. induction l as [|x l IH]; intros r H t a Ht.
  - destruct t; discriminate.
  - simpl in H. destruct (f x) as [y|e] eqn:Ex; [|discriminate].
    simpl in H. destruct (Pandas.mapM f l) as [ys|e] eqn:El; [|discriminate].
    simpl in H. injection H as <-.
    destruct t as [|t]; simpl in *.
    + injection Ht as <-. now exists y.
    + now apply (IH ys eq_refl t a).
Qed.

Lemma map2_nth {A B C : Type} (f : A -> B -> C) (l : list A) (m : list B) :
  forall t a b, nth_error l t = Some a -> nth_error m t = Some b ->
                nth_error (PVPanel.map2 f l m) t = Some (f a b).
Proof.
  revert m. induction l as [|x l IH]; intros m t a b Ha Hb.
  - destruct t; discriminate.
  - destruct m as [|y m]; [destruct t; discriminate|].
    destruct t as [|t]; simpl in *.
    + now injection Ha as <-; injection Hb as <-.
    + now apply IH.
Qed.

(** The table with 29 days is chosen only when [year_days] is 366: for
    a frame of more than 8760 rows, that is a last row of 1 December. *)
Lemma DY_per_MO_29_on_1_December (month day : Pandas.Series) (rows : nat) :
  (8760 < Z.of_nat rows)%Z ->
  Pandas.iloc_last month = Ok (Pandas.CInt 12) ->
  Pandas.iloc_last day = Ok (Pandas.CInt 1) ->
  PVPanel.year_days month day rows = Ok (Pandas.CInt 366) /\
  PVPanel.DY_per_MO (Pandas.CInt 366)
  = [31; 29; 31; 30; 31; 30; 31; 31; 30; 31; 30; 31]%Z.
Proof.
  intros Hrows Hm Hd. split; [|reflexivity].
  unfold PVPanel.year_days. rewrite Hd, Hm. simpl bind.
  unfold PVPanel.February.
  apply Z.ltb_lt in Hrows. rewrite Hrows. reflexivity.
Qed.

(** C3 fails on a full leap year.  For a frame of more than 8760 rows
    whose last row is 31 December, [year_days] is 31 + 366 - 1 = 396 (the
    cumulative sum is taken up to the end of December), which is not 366,
    so the day-of-year table keeps 28 days for February: every row of
    1 March gets day-of-year 60, not 61. *)
Theorem C3_leap_year_frame_keeps_28
    (month day : Pandas.Series) (rows : nat) :
  (8760 < Z.of_nat rows)%Z ->
  Pandas.iloc_last month = Ok (Pandas.CInt 12) ->
  Pandas.iloc_last day = Ok (Pandas.CInt 31) ->
  PVPanel.year_days month day rows = Ok (Pandas.CInt 396) /\
  PVPanel.DY_per_MO (Pandas.CInt 396)
  = [31; 28; 31; 30; 31; 30; 31; 31; 30; 31; 30; 31]%Z /\
  (forall doy t,
      PVPanel.day_of_year month day (PVPanel.DY_per_MO (Pandas.CInt 396))
      = Ok doy ->
      nth_error month t = Some (Pandas.CInt 3) ->
      nth_error day t = Some (Pandas.CInt 1) ->
      nth_error doy t = Some (Pandas.CInt 60)).
Proof.
  intros Hrows Hm Hd. split; [|split].
  - unfold PVPanel.year_days. rewrite Hd, Hm. simpl bind.
    unfold PVPanel.February.
    apply Z.ltb_lt in Hrows. rewrite Hrows. reflexivity.
  - reflexivity.
  - intros doy t Hdoy Hmt Hdt.
    unfold PVPanel.day_of_year in Hdoy.
    destruct (Pandas.mapM _ month) as [offsets|e] eqn:E; [|discriminate].
    simpl in Hdoy. injection Hdoy as <-.
    destruct (mapM_nth _ _ _ E t _ Hmt) as (off & Hoff & Hnth).
    rewrite (map2_nth _ _ _ t _ _ Hdt Hnth).
    vm_compute in Hoff. injection Hoff as <-. reflexivity.
Qed.

Lemma C3_leap_year_frame_keeps_28_witness :
  Z.of_nat (List.length Examples.leap_month) = 8784%Z /\
  nth_error Examples.leap_month Examples.first_row_of_march
  = Some (Pandas.CInt 3) /\
  nth_error Examples.leap_day Examples.first_row_of_march
  = Some (Pandas.CInt 1) /\
  PVPanel.year_days Examples.leap_month Examples.leap_day
    (List.length Examples.leap_month) = Ok (Pandas.CInt 396) /\
  exists doy,
    PVPanel.day_of_year Examples.leap_month Examples.leap_day
      (PVPanel.DY_per_MO (Pandas.CInt 396)) = Ok doy /\
    nth_error doy Examples.first_row_of_march = Some (Pandas.CInt 60).
Proof.
  assert (Hrows : (8760 < Z.of_nat (List.length Examples.leap_month))%Z)
    by (vm_compute; reflexivity).
  assert (Hm : Pandas.iloc_last Examples.leap_month = Ok (Pandas.CInt 12))
    by (vm_compute; reflexivity).
  assert (Hd : Pandas.iloc_last Examples.leap_day = Ok (Pandas.CInt 31))
    by (vm_compute; reflexivity).
  destruct (C3_leap_year_frame_keeps_28
              Examples.leap_month Examples.leap_day
              (List.length Examples.leap_month) Hrows Hm Hd)
    as (Hyd & _ & Hdoy).
  split; [vm_compute; reflexivity|].
  split; [vm_compute; reflexivity|].
  split; [vm_compute; reflexivity|].
  split; [exact Hyd|].
  destruct (PVPanel.day_of_year Examples.leap_month Examples.leap_day
              (PVPanel.DY_per_MO (Pandas.CInt 396))) as [doy|e] eqn:E.
  - exists doy. split; [reflexivity|].
    apply (Hdoy doy Examples.first_row_of_march eq_refl);
      vm_compute; reflexivity.
  - exfalso. vm_compute in E. discriminate E.
Defined.

(** ** Column resolution *)

Lemma prefix_app (a s : string) :
  String.prefix a s = true <-> exists b, s = (a ++ b)%string.
Proof.
  revert s. induction a as [|c a IH]; intros s; simpl.
  - destruct s; split; eauto.
  - destruct s as [|c' s]; simpl.
    + split; [discriminate | intros [b Hb]; discriminate].
    + destruct (ascii_dec c c') as [->|Hne].
      * rewrite IH. split.
        -- intros [b ->]. now exists b.
        -- intros [b Hb]. injection Hb as ->. now exists b.
      * split; [discriminate|].
        intros [b Hb]. injection Hb as Hc _. congruence.
Qed.

(** [py_in] is containment as a contiguous run. *)
Lemma py_in_spec (sub s : string) :
  py_in sub s = true <-> exists a b, s = (a ++ sub ++ b)%string.
Proof.
  induction s as [|c s IH].
  - cbn [py_in]. rewrite orb_false_r, prefix_app. split.
    + intros [b Hb]. now exists EmptyString, b.
    + intros (a & b & H). destruct a; [|discriminate]. now exists b.
  - cbn [py_in]. rewrite orb_true_iff, prefix_app, IH. split.
    + intros [[b Hb] | (a & b & H)].
      * now exists EmptyString, b.
      * exists (String c a), b. simpl. now rewrite H.
    + intros (a & b & H). destruct a as [|c' a].
      * left. now exists b.
      * right. simpl in H. injection H as _ H. now exists a, b.
Qed.

(** One pass of the inner loop over the six keys. *)
Lemma inner_loop (col : string) (g : string -> option string) :
  let d := map (fun k => (k, g k)) PVPanel.required_columns in
  fold_left
    (fun d' req =>
       if py_in req (lower col) then PVPanel.dict_set req (Some col) d'
       else d')
    (map fst d) d
  = map (fun k => (k, if carries k col then Some col else g k))
        PVPanel.required_columns.
Proof.
  unfold carries.
  cbv [PVPanel.required_columns map fst fold_left].
  destruct (py_in "month" (lower col));
    destruct (py_in "day" (lower col));
    destruct (py_in "hour" (lower col));
    destruct (py_in "horizontal irradiance" (lower col));
    destruct (py_in "temperature" (lower col));
    destruct (py_in "solar zenith" (lower col));
    reflexivity.
Qed.

Lemma last_carrying_snoc (k col : string) (cols : list string) :
  last_carrying k (cols ++ [col])
  = if carries k col then Some col else last_carrying k cols.
Proof.
  unfold last_carrying. rewrite rev_unit. reflexivity.
Qed.

(** The dictionary after the two loops: every key holds the last label
    that carries it. *)
Lemma resolve_columns_last (cols : list string) :
  PVPanel.resolve_columns cols
  = map (fun k => (k, last_carrying k cols)) PVPanel.required_columns.
Proof.
  induction cols as [|col cols IH] using rev_ind.
  - reflexivity.
  - unfold PVPanel.resolve_columns in *. rewrite fold_left_app.
    cbn [fold_left]. rewrite IH.
    rewrite (inner_loop col (fun k => last_carrying k cols)).
    apply map_ext. intros k. now rewrite last_carrying_snoc.
Qed.

Lemma find_rev_none {A : Type} (p : A -> bool) (l : list A) :
  find p (rev l) = None <-> existsb p l = false.
Proof.
  split.
  - intros H. destruct (existsb p l) eqn:E; [|reflexivity].
    apply existsb_exists in E. destruct E as (x & Hx & Hpx).
    apply in_rev in Hx. rewrite (find_none _ _ H x Hx) in Hpx.
    discriminate.
  - intros H. destruct (find p (rev l)) as [x|] eqn:E; [|reflexivity].
    apply find_some in E. destruct E as [Hx Hpx].
    assert (existsb p l = true) as Ht.
    { apply existsb_exists. exists x. split; [|exact Hpx].
      now apply in_rev. }
    congruence.
Qed.

Lemma find_rev_last {A : Type} (p : A -> bool) (l : list A) (c : A) :
  find p (rev l) = Some c ->
  exists pre post,
    l = pre ++ c :: post /\ p c = true /\
    forall x, In x post -> p x = false.
Proof.
  induction l as [|y l IH] using rev_ind; [discriminate|].
  rewrite rev_unit. simpl. destruct (p y) eqn:E.
  - intros H. injection H as <-. exists l, []. repeat split; auto.
    intros x [].
  - intros H. destruct (IH H) as (pre & post & -> & Hc & Hpost).
    exists pre, (post ++ [y]). rewrite <- app_assoc. repeat split; auto.
    intros x Hx. apply in_app_or in Hx. destruct Hx as [Hx | [<- | []]]; auto.
Qed.

Lemma missing_of_map (g : string -> option string) (keys : list string) :
  PVPanel.missing_columns (map (fun k => (k, g k)) keys)
  = filter (fun k => is_none (g k)) keys.
Proof.
  unfold PVPanel.missing_columns.
  induction keys as [|k keys IH]; simpl; [reflexivity|].
  destruct (g k); simpl; now rewrite IH.
Qed.

Lemma existsb_none_of_map (g : string -> option string) (keys : list string) :
  existsb (fun kv : string * option string =>
             match snd kv with None => true | _ => false end)
          (map (fun k => (k, g k)) keys) = false
  <-> filter (fun k => is_none (g k)) keys = [].
Proof.
  induction keys as [|k keys IH]; simpl; [tauto|].
  destruct (g k); simpl; [exact IH|]. split; discriminate.
Qed.

Lemma resolved_of_map (g : string -> option string) (keys : list string) :
  filter (fun k => is_none (g k)) keys = [] ->
  forall k, In k keys ->
    exists c, g k = Some c /\
      PVPanel.resolved k
        (flat_map (fun kv : string * option string =>
                     match snd kv with
                     | Some c => [(fst kv, c)]
                     | None => []
                     end)
                  (map (fun k => (k, g k)) keys)) = Ok c.
Proof.
  induction keys as [|k0 keys IH]; simpl; [intros _ k []|].
  destruct (g k0) as [c0|] eqn:E0; simpl; [|discriminate].
  intros Hnone k [<- | Hk].
  - exists c0. now rewrite String.eqb_refl.
  - destruct (String.eqb k0 k) eqn:Ek.
    + apply String.eqb_eq in Ek. subst k0. now exists c0.
    + now apply IH.
Qed.

Lemma not_carried_filter (cols : list string) :
  not_carried cols
  = filter (fun k => is_none (last_carrying k cols)) PVPanel.required_columns.
Proof.
  unfold not_carried. apply filter_ext. intros k.
  unfold last_carrying.
  destruct (find (carries k) (rev cols)) as [c|] eqn:E; simpl.
  - destruct (existsb (carries k) cols) eqn:Ex; [reflexivity|].
    apply find_rev_none in Ex. congruence.
  - apply find_rev_none in E. now rewrite E.
Qed.

Lemma checked_columns_missing (cols : list string) :
  not_carried cols <> [] ->
  PVPanel.checked_columns cols
  = Raise (ValueError "Missing required data columns: " (not_carried cols)).
Proof.
  intros H. unfold PVPanel.checked_columns.
  rewrite resolve_columns_last, missing_of_map, <- not_carried_filter.
  destruct (existsb _ _) eqn:E; [reflexivity|].
  apply existsb_none_of_map in E. rewrite <- not_carried_filter in E.
  contradiction.
Qed.

(** C7, as the code has it.  Each required token (month, day, hour,
    horizontal irradiance, temperature, solar zenith) is resolved to the
    LAST column of the frame whose lower-cased label contains the token:
    the label carries the token and no later label does.  When some token
    is carried by no label, the call raises a [ValueError] that lists
    exactly the tokens without a label, in the order above. *)
Theorem C7_columns_resolved_to_last_carrying (cols : list string) :
  (not_carried cols = [] ->
   exists d,
     PVPanel.checked_columns cols = Ok d /\
     forall k, In k PVPanel.required_columns ->
       exists pre c post,
         PVPanel.resolved k d = Ok c /\
         cols = pre ++ c :: post /\
         py_in k (lower c) = true /\
         forall x, In x post -> py_in k (lower x) = false) /\
  (not_carried cols <> [] ->
   PVPanel.checked_columns cols
   = Raise (ValueError "Missing required data columns: " (not_carried cols))
   /\
   forall (np : NumpyOps) (self : PVPanel.t),
     Pandas.columns (PVPanel.irradiance_data self) = cols ->
     PVPanel.calculate_irradiance_vector self
     = Raise (ValueError "Missing required data columns: "
                         (not_carried cols))).
Proof.
  split.
  - intros Hnone. rewrite not_carried_filter in Hnone.
    unfold PVPanel.checked_columns. rewrite resolve_columns_last.
    rewrite (proj2 (existsb_none_of_map _ _) Hnone).
    eexists. split; [reflexivity|].
    intros k Hk.
    destruct (resolved_of_map _ _ Hnone k Hk) as (c & Hc & Hres).
    destruct (find_rev_last _ _ _ Hc) as (pre & post & Hcols & Hcar & Hpost).
    exists pre, c, post. repeat split; assumption.
  - intros Hsome. split; [now apply checked_columns_missing|].
    intros np self Hcols. unfold PVPanel.calculate_irradiance_vector.
    rewrite Hcols, (checked_columns_missing _ Hsome). reflexivity.
Qed.

Lemma C7_columns_resolved_to_last_carrying_witness :
  (exists d,
     PVPanel.checked_columns Examples.labels_with_weekday = Ok d /\
     exists pre c post,
       PVPanel.resolved "day" d = Ok c /\
       Examples.labels_with_weekday = pre ++ c :: post /\
       py_in "day" (lower c) = true /\
       forall x, In x post -> py_in "day" (lower x) = false) /\
  PVPanel.checked_columns Examples.labels_incomplete
  = Raise (ValueError "Missing required data columns: "
                      ["temperature"; "solar zenith"]%string).
Proof.
  split.
  - destruct (proj1 (C7_columns_resolved_to_last_carrying
                       Examples.labels_with_weekday) eq_refl)
      as (d & Hd & Hall).
    exists d. split; [exact Hd|].
    apply (Hall "day"%string). simpl. tauto.
  - apply (proj2 (C7_columns_resolved_to_last_carrying
                    Examples.labels_incomplete)).
    discriminate.
Defined.

(** C7 as stated fails: with the labels [Month, Day, Weekday, Hour, ...]
    the first label that contains [day] is [Day], and the token is
    resolved to [Weekday]. *)
Lemma C7_first_carrying_refuted :
  first_carrying "day" Examples.labels_with_weekday = Some "Day"%string /\
  exists d,
    PVPanel.checked_columns Examples.labels_with_weekday = Ok d /\
    PVPanel.resolved "day" d = Ok "Weekday"%string.
Proof.
  split; [reflexivity|].
  eexists. split; reflexivity.
Qed.

(** ** The annuity formula over the rationals

    Facts about the formula [annuity] itself, in exact arithmetic: it is
    strictly increasing in the rate, and tends to [cost / lifetime] as
    the rate tends to 0 from above.  What the two methods return in
    binary64 is the subject of the next part. *)

Lemma Qpower_nat (x : Q) (n : nat) : x ^ Z.of_nat n == pw x n.
Proof.
  induction n as [|n IH].
  - reflexivity.
  - rewrite Nat2Z.inj_succ, <- Z.add_1_l.
    rewrite Qpower_plus' by lia. rewrite IH. simpl pw.
    apply Qmult_comp; [|reflexivity]. reflexivity.
Qed.

Lemma geo_sum (x : Q) (n : nat) : (1 - x) * geo x n == 1 - pw x n.
Proof.
  induction n as [|n IH]; simpl.
  - ring.
  - setoid_replace ((1 - x) * (1 + x * geo x n))
      with ((1 - x) + x * ((1 - x) * geo x n)) by ring.
    rewrite IH. ring.
Qed.

Lemma geo_nonneg (x : Q) (n : nat) : 0 <= x -> 0 <= geo x n.
Proof.
  intros Hx. induction n as [|n IH]; cbn [geo]; [lra|]. nra.
Qed.

Lemma geo_ge_1 (x : Q) (n : nat) : 0 <= x -> 1 <= geo x (S n).
Proof.
  intros Hx. cbn [geo]. pose proof (geo_nonneg x n Hx). nra.
Qed.

Lemma geo_le_n (x : Q) (n : nat) :
  0 <= x -> x <= 1 -> geo x n <= inject_Z (Z.of_nat n).
Proof.
  intros H0 H1. induction n as [|n IH].
  - cbn [geo]. change (inject_Z (Z.of_nat 0)) with 0. lra.
  - rewrite Nat2Z.inj_succ, <- Z.add_1_l, inject_Z_plus. cbn [geo].
    pose proof (geo_nonneg x n H0) as Hg. change (inject_Z 1) with 1.
    generalize dependent (inject_Z (Z.of_nat n)). intros N IH.
    generalize dependent (geo x n). intros g IH Hg.
    assert (x * g <= g) by nra. lra.
Qed.

Lemma geo_mono (x y : Q) (n : nat) : 0 <= x -> x <= y -> geo x n <= geo y n.
Proof.
  intros H0 Hxy. induction n as [|n IH]; cbn [geo]; [lra|].
  pose proof (geo_nonneg x n H0). nra.
Qed.

Lemma inv_bounds (r : Q) : 0 < r -> 0 < / (1 + r) /\ / (1 + r) < 1.
Proof.
  intros Hr. assert (H1 : 0 < 1 + r) by lra.
  split.
  - now apply Qinv_lt_0_compat.
  - setoid_replace 1 with (/ 1) at 2 by reflexivity.
    apply -> Qinv_lt_contravar; lra.
Qed.

Lemma one_minus_inv (r : Q) : 0 < r -> 1 - / (1 + r) == r * / (1 + r).
Proof.
  intros Hr. field. lra.
Qed.

Lemma discount_power (r : Q) (n : nat) :
  (1 + r) ^ (- Z.of_nat n) == pw (/ (1 + r)) n.
Proof.
  rewrite Qpower_opp, <- Qinv_power. apply Qpower_nat.
Qed.

Lemma denominator_factored (r : Q) (n : nat) :
  0 < r ->
  1 - (1 + r) ^ (- Z.of_nat n) == r * (/ (1 + r) * geo (/ (1 + r)) n).
Proof.
  intros Hr. rewrite discount_power, <- geo_sum, one_minus_inv by exact Hr.
  ring.
Qed.

Lemma discount_sum_pos (x : Q) (n : nat) : 0 < x -> 0 < discount_sum x (S n).
Proof.
  intros Hx. unfold discount_sum.
  pose proof (geo_ge_1 x n (Qlt_le_weak _ _ Hx)). nra.
Qed.

Lemma discount_sum_mono (x y : Q) (n : nat) :
  0 < x -> x < y -> discount_sum x (S n) < discount_sum y (S n).
Proof.
  intros Hx Hxy. unfold discount_sum.
  pose proof (geo_ge_1 x n (Qlt_le_weak _ _ Hx)) as H1.
  pose proof (geo_mono x y (S n) (Qlt_le_weak _ _ Hx)
                       (Qlt_le_weak _ _ Hxy)) as H2.
  generalize dependent (geo x (S n)). generalize dependent (geo y (S n)).
  intros gy gx H1 H2.
  assert (x * gx < y * gx) by nra. assert (y * gx <= y * gy) by nra. lra.
Qed.

Lemma annuity_as_quotient (c r : Q) (n : nat) :
  0 < r ->
  annuity c (Z.of_nat (S n)) r == c / discount_sum (/ (1 + r)) (S n).
Proof.
  intros Hr. unfold annuity. rewrite denominator_factored by exact Hr.
  fold (discount_sum (/ (1 + r)) (S n)).
  pose proof (discount_sum_pos (/ (1 + r)) n (proj1 (inv_bounds r Hr))) as HU.
  field. split; lra.
Qed.

Lemma annuity_increasing (c r1 r2 : Q) (n : nat) :
  0 < c -> 0 < r1 -> r1 < r2 ->
  annuity c (Z.of_nat (S n)) r1 < annuity c (Z.of_nat (S n)) r2.
Proof.
  intros Hc H1 H12. assert (H2 : 0 < r2) by lra.
  rewrite !annuity_as_quotient by assumption.
  assert (Hx : / (1 + r2) < / (1 + r1)).
  { apply -> Qinv_lt_contravar; lra. }
  pose proof (discount_sum_pos (/ (1 + r2)) n
                (proj1 (inv_bounds r2 H2))) as HU2.
  pose proof (discount_sum_mono _ _ n (proj1 (inv_bounds r2 H2)) Hx) as HU.
  set (u1 := discount_sum (/ (1 + r1)) (S n)) in *. clearbody u1.
  set (u2 := discount_sum (/ (1 + r2)) (S n)) in *. clearbody u2.
  assert (Hu1 : 0 < u1) by lra.
  apply Qlt_shift_div_l; [lra|].
  setoid_replace (c / u1 * u2) with (c * (u2 / u1)) by (field; lra).
  assert (u2 / u1 < 1).
  { apply Qlt_shift_div_r; lra. }
  nra.
Qed.

Lemma geo_lower (x : Q) (n : nat) :
  0 <= x -> x <= 1 ->
  inject_Z (Z.of_nat n)
  - inject_Z (Z.of_nat n) * inject_Z (Z.of_nat n) * (1 - x) <= geo x n.
Proof.
  intros H0 H1. induction n as [|n IH].
  - cbn [geo]. change (inject_Z (Z.of_nat 0)) with 0. lra.
  - rewrite Nat2Z.inj_succ, <- Z.add_1_l, inject_Z_plus. cbn [geo].
    change (inject_Z 1) with 1.
    pose proof (geo_le_n x n H0 H1) as Hle.
    pose proof (geo_nonneg x n H0) as Hg.
    assert (HN : 0 <= inject_Z (Z.of_nat n)).
    { change 0 with (inject_Z 0). rewrite <- Zle_Qle. lia. }
    generalize dependent (inject_Z (Z.of_nat n)). intros N IH Hle HN.
    generalize dependent (geo x n). intros g IH Hle Hg.
    assert (Ht : 0 <= 1 - x) by lra. set (t := 1 - x) in *.
    assert (Hx : x == 1 - t) by (unfold t; ring).
    assert (t * g <= t * N) by nra.
    assert (0 <= N * t) by nra.
    setoid_replace (1 + x * g) with (1 + g - t * g) by (rewrite Hx; ring).
    setoid_replace (1 + N - (1 + N) * (1 + N) * t)
      with (1 + (N - N * N * t) - t * N - (N * t + t)) by ring.
    lra.
Qed.

Lemma discount_sum_lower (r : Q) (n : nat) :
  0 < r ->
  inject_Z (Z.of_nat n)
  - inject_Z (Z.of_nat n) * (inject_Z (Z.of_nat n) + 1) * r
  <= discount_sum (/ (1 + r)) n.
Proof.
  intros Hr. destruct (inv_bounds r Hr) as [Hx0 Hx1].
  pose proof (one_minus_inv r Hr) as Ht.
  pose proof (geo_lower (/ (1 + r)) n (Qlt_le_weak _ _ Hx0)
                        (Qlt_le_weak _ _ Hx1)) as Hlow.
  pose proof (geo_le_n (/ (1 + r)) n (Qlt_le_weak _ _ Hx0)
                       (Qlt_le_weak _ _ Hx1)) as Hle.
  pose proof (geo_nonneg (/ (1 + r)) n (Qlt_le_weak _ _ Hx0)) as Hg.
  assert (HN : 0 <= inject_Z (Z.of_nat n)).
  { change 0 with (inject_Z 0). rewrite <- Zle_Qle. lia. }
  unfold discount_sum.
  set (x := / (1 + r)) in *. clearbody x.
  set (g := geo x n) in *. clearbody g.
  set (N := inject_Z (Z.of_nat n)) in *. clearbody N.
  assert (Htr : 1 - x <= r) by nra.
  assert (Ht0 : 0 <= 1 - x) by lra.
  set (t := 1 - x) in *.
  assert (Hx : x == 1 - t) by (unfold t; ring).
  setoid_replace (x * g) with (g - t * g) by (rewrite Hx; ring).
  assert (t * g <= t * N) by nra.
  assert (N * N * t <= N * N * r) by nra.
  assert (t * N <= N * r) by nra.
  setoid_replace (N * (N + 1) * r) with (N * N * r + N * r) by ring.
  lra.
Qed.

Lemma discount_sum_le_n (r : Q) (n : nat) :
  0 < r -> discount_sum (/ (1 + r)) n <= inject_Z (Z.of_nat n).
Proof.
  intros Hr. destruct (inv_bounds r Hr) as [Hx0 Hx1].
  pose proof (geo_le_n (/ (1 + r)) n (Qlt_le_weak _ _ Hx0)
                       (Qlt_le_weak _ _ Hx1)) as Hle.
  pose proof (geo_nonneg (/ (1 + r)) n (Qlt_le_weak _ _ Hx0)) as Hg.
  unfold discount_sum. nra.
Qed.

Lemma annuity_near_zero (c eps r : Q) (n : nat) :
  0 < c -> 0 < eps -> 0 < r ->
  r < rate_bound c eps (inject_Z (Z.of_nat (S n))) ->
  Qabs (annuity c (Z.of_nat (S n)) r - c / inject_Z (Z.of_nat (S n))) < eps.
Proof.
  intros Hc He Hr Hd.
  rewrite annuity_as_quotient by exact Hr.
  pose proof (discount_sum_lower r (S n) Hr) as Hlow.
  pose proof (discount_sum_le_n r (S n) Hr) as Hup.
  assert (HN : 1 <= inject_Z (Z.of_nat (S n))).
  { change 1 with (inject_Z 1). rewrite <- Zle_Qle. lia. }
  unfold rate_bound in Hd. apply Q.min_glb_lt_iff in Hd.
  destruct Hd as [Hd1 Hd2].
  set (u := discount_sum (/ (1 + r)) (S n)) in *. clearbody u.
  set (N := inject_Z (Z.of_nat (S n))) in *. clearbody N.
  assert (H1 : r * (2 * (N + 1)) < 1).
  { apply (Qmult_lt_compat_r _ _ (2 * (N + 1))) in Hd1; [|lra].
    setoid_replace (1 / (2 * (N + 1)) * (2 * (N + 1))) with 1 in Hd1
      by (field; lra).
    exact Hd1. }
  assert (H2 : r * (2 * c * (N + 1)) < eps * N).
  { assert (0 < 2 * c * (N + 1)) by nra.
    apply (Qmult_lt_compat_r _ _ (2 * c * (N + 1))) in Hd2; [|assumption].
    setoid_replace (eps * N / (2 * c * (N + 1)) * (2 * c * (N + 1)))
      with (eps * N) in Hd2 by (field; split; lra).
    exact Hd2. }
  assert (Hu : N <= 2 * u).
  { assert (N * (r * (2 * (N + 1))) <= N * 1)
      by (apply Qmult_le_l; lra).
    assert (2 * (N * (N + 1) * r) == N * (r * (2 * (N + 1)))) by ring.
    lra. }
  assert (Hu0 : 0 < u) by lra.
  assert (Hdiff : c / u - c / N == c * (N - u) / (N * u))
    by (field; split; lra).
  rewrite Hdiff. apply Qabs_Qlt_condition.
  assert (HNu : 0 < N * u) by nra.
  split.
  - apply Qlt_le_trans with 0; [lra|].
    apply Qle_shift_div_l; [exact HNu|].
    assert (0 <= c * (N - u)) by nra. lra.
  - apply Qlt_shift_div_r; [exact HNu|].
    assert (c * (N - u) <= c * (N * (N + 1) * r)) by nra.
    assert (2 * (c * (N * (N + 1) * r)) == N * (r * (2 * c * (N + 1))))
      by ring.
    assert (N * (r * (2 * c * (N + 1))) < N * (eps * N))
      by (apply Qmult_lt_l; lra).
    assert (eps * (N * N) <= eps * (2 * (N * u))).
    { apply Qmult_le_l; [lra|].
      setoid_replace (2 * (N * u)) with (N * (2 * u)) by ring.
      apply Qmult_le_l; lra. }
    assert (N * (eps * N) == eps * (N * N)) by ring.
    assert (eps * (2 * (N * u)) == 2 * (eps * (N * u))) by ring.
    lra.
Qed.

Lemma rate_bound_pos (c eps N : Q) :
  0 < c -> 0 < eps -> 1 <= N ->
  0 < rate_bound c eps N /\ rate_bound c eps N < 1.
Proof.
  intros Hc He HN. unfold rate_bound. split.
  - apply Q.min_glb_lt.
    + apply Qlt_shift_div_l; lra.
    + apply Qlt_shift_div_l; nra.
  - apply Qle_lt_trans with (1 / (2 * (N + 1))); [apply Q.le_min_l|].
    apply Qlt_shift_div_r; lra.
Qed.

Lemma positive_lifetime (l : Z) :
  (0 < l)%Z -> l = Z.of_nat (S (Z.to_nat (l - 1))).
Proof.
  intros H. lia.
Qed.

Lemma annuity_limit (c : Q) (l : Z) (eps : Q) :
  0 < c -> (0 < l)%Z -> 0 < eps ->
  exists delta,
    0 < delta /\ delta < 1 /\
    forall r, 0 < r -> r < delta ->
              Qabs (annuity c l r - c / inject_Z l) < eps.
Proof.
  intros Hc Hl He. rewrite (positive_lifetime l Hl).
  set (n := Z.to_nat (l - 1)).
  assert (HN : 1 <= inject_Z (Z.of_nat (S n))).
  { change 1 with (inject_Z 1). rewrite <- Zle_Qle. lia. }
  destruct (rate_bound_pos c eps _ Hc He HN) as [Hpos Hlt].
  exists (rate_bound c eps (inject_Z (Z.of_nat (S n)))).
  split; [exact Hpos|]. split; [exact Hlt|].
  intros r Hr Hd. now apply annuity_near_zero.
Qed.

(** ** Annuity cost in binary64 *)

Section Binary64Cost.

Import PrimFloat.
Local Open Scope float_scope.






End Binary64Cost.

(** * Further properties of the components *)

(** ** Battery: a charging time of zero, and costs that cannot be
    computed *)







(** ** Diesel generator *)



Lemma set_minimum_power_share (g : DieselGen.t) (v : Q) :
  share_consistent (DieselGen._set_minimum_power g v).
Proof.
  unfold share_consistent, DieselGen._set_minimum_power.
  destruct (Qltb v 1) eqn:E; cbn; [|exact I].
  apply Qltb_lt in E. now split.
Qed.

Lemma after_share (c : DieselGen.setter_call) (g : DieselGen.t) :
  share_consistent g -> share_consistent (DieselGen.after c g).
Proof.
  intros Hg. destruct c as [v|v|v]; cbn [DieselGen.after].
  - unfold DieselGen.set_capacity. cbn [DieselGen._min_power_percentage].
    destruct (DieselGen._min_power_percentage g) as [p|] eqn:E.
    + apply set_minimum_power_share.
    + unfold share_consistent. cbn. exact I.
  - apply set_minimum_power_share.
  - unfold share_consistent in *. cbn. exact Hg.
Qed.

Lemma after_all_share (cs : list DieselGen.setter_call) (g : DieselGen.t) :
  share_consistent g -> share_consistent (DieselGen.after_all cs g).
Proof.
  unfold DieselGen.after_all. revert g.
  induction cs as [|c cs IH]; intros g Hg; cbn [fold_left]; [exact Hg|].
  apply IH. now apply after_share.
Qed.

Lemma after_keeps_mode (c : DieselGen.setter_call) (g : DieselGen.t) :
  keeps_minimum_power c -> share_consistent g ->
  DieselGen._min_power_percentage (DieselGen.after c g)
  = DieselGen._min_power_percentage g /\
  (DieselGen._min_power_percentage g = None ->
   DieselGen.minimum_power (DieselGen.after c g) = DieselGen.minimum_power g).
Proof.
  intros Hc Hg. destruct c as [v|v|v]; cbn [DieselGen.after];
    [|contradiction|split; reflexivity].
  unfold DieselGen.set_capacity. cbn [DieselGen._min_power_percentage].
  unfold share_consistent in Hg.
  destruct (DieselGen._min_power_percentage g) as [p|] eqn:E.
  - destruct Hg as [Hp _]. unfold DieselGen.set_minimum_power,
      DieselGen._set_minimum_power.
    rewrite (proj2 (Qltb_lt p 1) Hp). cbn. split; [reflexivity|discriminate].
  - cbn. split; reflexivity.
Qed.

(** X6.  Through any sequence of [set_capacity] and [set_cost_per_kwh]
    calls, a generator constructed with a minimum power below 1 keeps its
    minimum power at that share of the current capacity, and one
    constructed with a minimum power of 1 or more keeps that value. *)
Theorem diesel_minimum_power_follows_capacity
    (capacity minimum_power cost_per_kwh : Q) (lifetime : Z)
    (initial_cost annual_om_cost : Q) (cs : list DieselGen.setter_call) :
  Forall keeps_minimum_power cs ->
  let g := DieselGen.after_all cs
             (DieselGen.__init__ capacity minimum_power cost_per_kwh
                lifetime initial_cost annual_om_cost) in
  (minimum_power < 1 ->
   DieselGen.minimum_power g = DieselGen.capacity g * minimum_power) /\
  (1 <= minimum_power -> DieselGen.minimum_power g = minimum_power).
Proof.
  intros Hcs g.
  set (g0 := DieselGen.__init__ capacity minimum_power cost_per_kwh
               lifetime initial_cost annual_om_cost) in *.
  assert (Hg0 : share_consistent g0) by apply set_minimum_power_share.
  assert (Hgen : forall cs g1,
             Forall keeps_minimum_power cs -> share_consistent g1 ->
             DieselGen._min_power_percentage (DieselGen.after_all cs g1)
             = DieselGen._min_power_percentage g1 /\
             (DieselGen._min_power_percentage g1 = None ->
              DieselGen.minimum_power (DieselGen.after_all cs g1)
              = DieselGen.minimum_power g1)).
  { clear. intros cs. unfold DieselGen.after_all.
    induction cs as [|c cs IH]; intros g1 Hcs Hg1; cbn [fold_left].
    - split; reflexivity.
    - inversion Hcs as [|? ? Hc Hcs']; subst.
      destruct (after_keeps_mode c g1 Hc Hg1) as [Hm Hp].
      destruct (IH (DieselGen.after c g1) Hcs' (after_share c g1 Hg1))
        as [Hm' Hp'].
      split; [congruence|].
      intros Hnone. rewrite Hp' by congruence. now apply Hp. }
  destruct (Hgen cs g0 Hcs Hg0) as [Hmode Habs].
  pose proof (after_all_share cs g0 Hg0) as Hshare.
  fold g in Hmode, Habs, Hshare. split.
  - intros Hlt. unfold share_consistent in Hshare. rewrite Hmode in Hshare.
    unfold g0, DieselGen.__init__, DieselGen._set_minimum_power in Hshare.
    rewrite (proj2 (Qltb_lt _ _) Hlt) in Hshare. cbn in Hshare.
    apply Hshare.
  - intros Hge. rewrite Habs.
    + unfold g0, DieselGen.__init__, DieselGen._set_minimum_power.
      rewrite (proj2 (Qltb_ge _ _) Hge). reflexivity.
    + unfold g0, DieselGen.__init__, DieselGen._set_minimum_power.
      rewrite (proj2 (Qltb_ge _ _) Hge). reflexivity.
Qed.

Lemma diesel_minimum_power_follows_capacity_witness :
  DieselGen.minimum_power
    (DieselGen.after_all
       [DieselGen.CallSetCapacity 500; DieselGen.CallSetCostPerKwh 0.7;
        DieselGen.CallSetCapacity 8000]
       DieselGen.default)
  = 8000 * 0.2.
Proof.
  apply (diesel_minimum_power_follows_capacity
           10000 0.2 0.5 20 200000 10000
           [DieselGen.CallSetCapacity 500; DieselGen.CallSetCostPerKwh 0.7;
            DieselGen.CallSetCapacity 8000]).
  - repeat constructor.
  - reflexivity.
Defined.

(** ** Lookups in the load and grid tables *)

Lemma load_selected_matches (r : Load.row) (month day hour : Z) :
  Load.selected month day hour r = true <-> load_row_matches r month day hour.
Proof.
  unfold Load.selected, load_row_matches.
  rewrite !andb_true_iff, !Qeq_bool_iff. tauto.
Qed.

(** X7.  [get_demand] returns the demand of the first row whose month,
    day and hour equal the arguments, and [None] when no row does. *)
Theorem load_get_demand_first_match (self : Load.t) (month day hour : Z) :
  (forall pre r post,
      Load.load_data self = pre ++ r :: post ->
      load_row_matches r month day hour ->
      (forall x, In x pre -> ~ load_row_matches x month day hour) ->
      Load.get_demand self month day hour = Some (Load.demand r)) /\
  ((forall x, In x (Load.load_data self) ->
              ~ load_row_matches x month day hour) ->
   Load.get_demand self month day hour = None).
Proof.
  unfold Load.get_demand. split.
  - intros pre r post Hdata Hr Hpre. rewrite Hdata.
    rewrite filter_first; [reflexivity| |now apply load_selected_matches].
    intros x Hx. specialize (Hpre x Hx).
    destruct (Load.selected month day hour x) eqn:E; [|reflexivity].
    apply load_selected_matches in E. contradiction.
  - intros Hnone. rewrite filter_none; [reflexivity|].
    intros x Hx. specialize (Hnone x Hx).
    destruct (Load.selected month day hour x) eqn:E; [|reflexivity].
    apply load_selected_matches in E. contradiction.
Qed.

Lemma load_get_demand_first_match_witness :
  Load.get_demand Examples.load 3 1 8 = Some 42.5 /\
  Load.get_demand Examples.load 3 1 9 = None.
Proof.
  split.
  - apply (proj1 (load_get_demand_first_match Examples.load 3 1 8)
             [Load.mk_row 3 1 7 40]
             (Load.mk_row 3 1 8 42.5)
             [Load.mk_row 3 1 8 99]).
    + reflexivity.
    + repeat split.
    + intros x [Hx | []]. subst x. intros (_ & _ & H). discriminate H.
  - apply (proj2 (load_get_demand_first_match Examples.load 3 1 9)).
    intros x Hx (_ & _ & H).
    simpl in Hx. destruct Hx as [Hx | [Hx | [Hx | []]]];
      subst x; discriminate H.
Defined.

(** X8.  Rows added at the end of the grid or load table never change a
    lookup that already finds a row; a lookup that finds none is answered
    from the added rows. *)
Theorem lookups_prefer_earlier_rows
    (rows more : list Grid.row) (lrows lmore : list Load.row)
    (month day hour : Z) :
  (Grid.get_grid_status_and_tariff (Grid.mk (rows ++ more)) month day hour
   = match Grid.get_grid_status_and_tariff (Grid.mk rows) month day hour with
     | Ok (None, None) =>
         Grid.get_grid_status_and_tariff (Grid.mk more) month day hour
     | found => found
     end) /\
  (Load.get_demand (Load.mk (lrows ++ lmore)) month day hour
   = match Load.get_demand (Load.mk lrows) month day hour with
     | None => Load.get_demand (Load.mk lmore) month day hour
     | found => found
     end).
Proof.
  split.
  - unfold Grid.get_grid_status_and_tariff. cbn [Grid.grid_data].
    rewrite filter_app.
    destruct (filter (Grid.selected month day hour) rows); reflexivity.
  - unfold Load.get_demand. cbn [Load.load_data].
    rewrite filter_app.
    destruct (filter (Load.selected month day hour) lrows); reflexivity.
Qed.

(** ** Day of year and month bounds *)

Lemma cum_days_from (acc : Z) (l : list Z) (i : nat) :
  (i < List.length l)%nat ->
  nth_error (Pandas.array_sub (Pandas.cumsum_from acc l) l) i
  = Some (acc + fold_right Z.add 0 (firstn i l))%Z.
Proof.
  revert acc i. induction l as [|x l IH]; intros acc i Hi; [inversion Hi|].
  cbn [Pandas.cumsum_from Pandas.array_sub].
  destruct i as [|i]; cbn [nth_error firstn fold_right].
  - f_equal. lia.
  - rewrite IH by (cbn in Hi; lia). f_equal. lia.
Qed.

Lemma cum_days_nth (dy : list Z) (i : nat) :
  (i < List.length dy)%nat ->
  nth_error (PVPanel.cum_days dy) i
  = Some (fold_right Z.add 0 (firstn i dy))%Z.
Proof.
  intros Hi. unfold PVPanel.cum_days, Pandas.cumsum.
  now rewrite cum_days_from.
Qed.

Lemma cum_days_length (dy : list Z) :
  List.length (PVPanel.cum_days dy) = List.length dy.
Proof.
  unfold PVPanel.cum_days, Pandas.cumsum. generalize 0%Z.
  induction dy as [|x dy IH]; intros acc; cbn; [reflexivity|].
  now rewrite IH.
Qed.

Lemma np_getitem_inside (arr : list Z) (i : Z) :
  (0 <= i < Z.of_nat (List.length arr))%Z ->
  exists a, nth_error arr (Z.to_nat i) = Some a /\
            Pandas.np_getitem arr i = Ok a.
Proof.
  intros Hi. unfold Pandas.np_getitem.
  destruct (Z.ltb_spec i 0); [lia|].
  destruct (Z.leb_spec 0 i); [|lia].
  destruct (Z.ltb_spec i (Z.of_nat (List.length arr))); [|lia].
  cbn [andb].
  destruct (nth_error arr (Z.to_nat i)) as [a|] eqn:E; [now exists a|].
  apply nth_error_None in E. lia.
Qed.

Lemma np_getitem_wraps (arr : list Z) (i : Z) :
  (- Z.of_nat (List.length arr) <= i < 0)%Z ->
  Pandas.np_getitem arr i
  = Pandas.np_getitem arr (i + Z.of_nat (List.length arr)).
Proof.
  intros Hi. unfold Pandas.np_getitem.
  destruct (Z.ltb_spec i 0); [|lia].
  destruct (Z.ltb_spec (i + Z.of_nat (List.length arr)) 0); [lia|].
  reflexivity.
Qed.


Lemma month_offset (dy : list Z) (m : Z) :
  List.length dy = 12%nat -> (-11 <= m <= 12)%Z ->
  (i <- Pandas.as_index (Pandas.cell_add_int (Pandas.CInt m) (-1)) ;;
   Pandas.np_getitem (PVPanel.cum_days dy) i)
  = Ok (preceding_days dy (month_read_as m)).
Proof.
  intros Hlen Hm. cbn [Pandas.cell_add_int Pandas.as_index bind].
  pose proof (cum_days_length dy) as Hcl. rewrite Hlen in Hcl.
  unfold preceding_days, month_read_as.
  destruct (Z.leb_spec m 0).
  - rewrite np_getitem_wraps by (rewrite Hcl; lia). rewrite Hcl.
    destruct (np_getitem_inside (PVPanel.cum_days dy) (m + -1 + Z.of_nat 12))
      as (a & Ha & ->); [rewrite Hcl; lia|].
    rewrite cum_days_nth in Ha by lia. injection Ha as <-.
    do 3 f_equal. lia.
  - destruct (np_getitem_inside (PVPanel.cum_days dy) (m + -1))
      as (a & Ha & ->); [rewrite Hcl; lia|].
    rewrite cum_days_nth in Ha by lia. now injection Ha as <-.
Qed.



Lemma mapM_total {A B : Type} (f : A -> result B) (l : list A) :
  (forall a, In a l -> exists b, f a = Ok b) ->
  exists r, Pandas.mapM f l = Ok r.
Proof.
  induction l as [|a l IH]; intros H; [now exists []|].
  destruct (H a (or_introl eq_refl)) as [b Hb].
  destruct IH as [r Hr]; [intros x Hx; apply H; now right|].
  exists (b :: r). cbn [Pandas.mapM]. now rewrite Hb, Hr.
Qed.

Lemma mapM_length {A B : Type} (f : A -> result B) (l : list A) (r : list B) :
  Pandas.mapM f l = Ok r -> List.length r = List.length l.
Proof.
  revert r. induction l as [|a l IH]; intros r H; cbn [Pandas.mapM] in H.
  - now injection H as <-.
  - destruct (f a) as [b|e]; [|discriminate]. cbn [bind] in H.
    destruct (Pandas.mapM f l) as [bs|e]; [|discriminate]. cbn [bind] in H.
    injection H as <-. cbn. f_equal. now apply IH.
Qed.


Lemma map2_length {A B C : Type} (f : A -> B -> C) (l : list A) (m : list B) :
  List.length (PVPanel.map2 f l m) = Nat.min (List.length l) (List.length m).
Proof.
  revert m. induction l as [|a l IH]; intros m; [reflexivity|].
  destruct m as [|b m]; [reflexivity|]. cbn. now rewrite IH.
Qed.

(** Day of year on months that the table can be indexed with. *)
Lemma day_of_year_in_table (month day : Pandas.Series) (dy : list Z) :
  List.length dy = 12%nat ->
  Forall month_in_table month ->
  exists doy,
    PVPanel.day_of_year month day dy = Ok doy /\
    List.length doy = Nat.min (List.length day) (List.length month) /\
    forall t m d,
      nth_error month t = Some (Pandas.CInt m) ->
      nth_error day t = Some d ->
      nth_error doy t
      = Some (Pandas.cell_add_int d (preceding_days dy (month_read_as m))).
Proof.
  intros Hlen Hmonth. unfold PVPanel.day_of_year.
  destruct (mapM_total
              (fun m => i <- Pandas.as_index (Pandas.cell_add_int m (-1)) ;;
                        Pandas.np_getitem (PVPanel.cum_days dy) i) month)
    as [offsets Hoff].
  { intros c Hc. rewrite Forall_forall in Hmonth.
    destruct (Hmonth c Hc) as (m & -> & Hm).
    eexists. now apply month_offset. }
  rewrite Hoff. cbn [bind]. eexists. split; [reflexivity|]. split.
  - rewrite map2_length. now rewrite (mapM_length _ _ _ Hoff).
  - intros t m d Hmt Hdt.
    destruct (mapM_nth _ _ _ Hoff t _ Hmt) as (off & Hofft & Hnth).
    rewrite (map2_nth _ _ _ t _ _ Hdt Hnth).
    rewrite Forall_forall in Hmonth.
    destruct (Hmonth _ (nth_error_In _ _ Hmt)) as (m' & Hm' & Hrange).
    injection Hm' as <-.
    rewrite (month_offset dy m Hlen Hrange) in Hofft.
    now injection Hofft as <-.
Qed.

Lemma DY_per_MO_length (yd : Pandas.cell) :
  List.length (PVPanel.DY_per_MO yd) = 12%nat.
Proof.
  unfold PVPanel.DY_per_MO. now destruct (Qeq_bool _ _).
Qed.

Lemma calendar_in_table (c : Pandas.cell) :
  calendar_month c -> month_in_table c.
Proof.
  intros (m & -> & Hm). exists m. split; [reflexivity | lia].
Qed.

(** X10.  When every month is an integer from 1 to 12, [day_of_year]
    returns one value per row; in a row whose day is an integer from 1 to
    31 the value is the day plus the total length of the months before
    the row's month, in the table that was chosen. *)
Theorem day_of_year_counts_preceding_months
    (month day : Pandas.Series) (yd : Pandas.cell) :
  Forall calendar_month month ->
  List.length day = List.length month ->
  exists doy,
    PVPanel.day_of_year month day (PVPanel.DY_per_MO yd) = Ok doy /\
    List.length doy = List.length month /\
    forall t m d,
      nth_error month t = Some (Pandas.CInt m) ->
      nth_error day t = Some (Pandas.CInt d) ->
      (1 <= d <= 31)%Z ->
      nth_error doy t
      = Some (Pandas.CInt
                (d + preceding_days (PVPanel.DY_per_MO yd) m)).
Proof.
  intros Hmonth Hlen.
  destruct (day_of_year_in_table month day (PVPanel.DY_per_MO yd)
              (DY_per_MO_length yd)) as (doy & Hdoy & Hl & Hnth).
  { eapply Forall_impl; [|exact Hmonth]. apply calendar_in_table. }
  exists doy. split; [exact Hdoy|]. split.
  - rewrite Hl, Hlen. apply Nat.min_id.
  - intros t m d Hmt Hdt _. rewrite (Hnth t m _ Hmt Hdt).
    rewrite Forall_forall in Hmonth.
    destruct (Hmonth _ (nth_error_In _ _ Hmt)) as (m' & Hm' & Hrange).
    injection Hm' as <-. unfold month_read_as.
    destruct (Z.leb_spec m 0); [lia|]. reflexivity.
Qed.

Lemma day_of_year_counts_preceding_months_witness :
  exists doy,
    PVPanel.day_of_year
      [Pandas.CInt 1; Pandas.CInt 3; Pandas.CInt 12]
      [Pandas.CInt 1; Pandas.CInt 1; Pandas.CInt 31]
      (PVPanel.DY_per_MO (Pandas.CInt 395)) = Ok doy /\
    nth_error doy 1 = Some (Pandas.CInt (1 + 59)) /\
    nth_error doy 2 = Some (Pandas.CInt (31 + 334)).
Proof.
  destruct (day_of_year_counts_preceding_months
              [Pandas.CInt 1; Pandas.CInt 3; Pandas.CInt 12]
              [Pandas.CInt 1; Pandas.CInt 1; Pandas.CInt 31]
              (Pandas.CInt 395)) as (doy & Hdoy & _ & Hnth).
  - repeat constructor; eexists; (split; [reflexivity | lia]).
  - reflexivity.
  - exists doy. split; [exact Hdoy|]. split.
    + apply (Hnth 1%nat 3%Z 1%Z); [reflexivity | reflexivity | lia].
    + apply (Hnth 2%nat 12%Z 31%Z); [reflexivity | reflexivity | lia].
Defined.



(** ** Which table of month lengths is chosen *)

Lemma DY_per_MO_29_iff (z : Z) :
  PVPanel.DY_per_MO (Pandas.CInt z) = table29 <-> z = 366%Z.
Proof.
  unfold PVPanel.DY_per_MO. cbn [Pandas.cell_Q].
  destruct (Qeq_bool (inject_Z z) 366) eqn:E.
  - apply Qeq_bool_iff in E.
    apply (proj1 (inject_Z_injective z 366)) in E. now split.
  - split; [discriminate|]. intros ->. discriminate E.
Qed.

(** X12.  For a last row with a month from 1 to 12 and a day from 1 to
    31, [year_days] returns, the table has 28 or 29 days for February, and
    it has 29 exactly when the last row is in December on day 1 (more than
    8760 rows) or on day 2 (8760 rows or fewer). *)
Theorem leap_table_only_on_december_row
    (month day : Pandas.Series) (rows : nat) (m d : Z) :
  Pandas.iloc_last month = Ok (Pandas.CInt m) ->
  Pandas.iloc_last day = Ok (Pandas.CInt d) ->
  (1 <= m <= 12)%Z -> (1 <= d <= 31)%Z ->
  exists yd,
    PVPanel.year_days month day rows = Ok yd /\
    (PVPanel.DY_per_MO yd = table29 \/ PVPanel.DY_per_MO yd = table28) /\
    (PVPanel.DY_per_MO yd = table29 <->
     m = 12%Z /\ d = (if (8760 <? Z.of_nat rows)%Z then 1 else 2)%Z).
Proof.
  intros Hm Hd Hmr Hdr. unfold PVPanel.year_days.
  rewrite Hd, Hm. cbn [bind Pandas.cell_add_int Pandas.as_index].
  unfold PVPanel.February.
  assert (Hcases : (m = 1 \/ m = 2 \/ m = 3 \/ m = 4 \/ m = 5 \/ m = 6 \/
                    m = 7 \/ m = 8 \/ m = 9 \/ m = 10 \/ m = 11 \/
                    m = 12)%Z) by lia.
  destruct (8760 <? Z.of_nat rows)%Z;
    repeat (destruct Hcases as [Hc | Hcases]; [subst m|]); try subst m;
    simpl;
    (eexists; split; [reflexivity|]; split;
     [unfold PVPanel.DY_per_MO; destruct (Qeq_bool _ _); auto
     |rewrite DY_per_MO_29_iff; lia]).
Qed.

Lemma leap_table_only_on_december_row_witness :
  exists yd,
    PVPanel.year_days Examples.leap_month Examples.leap_day
      (List.length Examples.leap_month) = Ok yd /\
    PVPanel.DY_per_MO yd = table28.
Proof.
  assert (Hm : Pandas.iloc_last Examples.leap_month = Ok (Pandas.CInt 12))
    by (vm_compute; reflexivity).
  assert (Hd : Pandas.iloc_last Examples.leap_day = Ok (Pandas.CInt 31))
    by (vm_compute; reflexivity).
  destruct (leap_table_only_on_december_row
              Examples.leap_month Examples.leap_day
              (List.length Examples.leap_month) 12 31 Hm Hd)
    as (yd & Hyd & Hor & Hiff); [lia | lia |].
  exists yd. split; [exact Hyd|].
  destruct Hor as [H29 | H28]; [|exact H28].
  apply Hiff in H29. destruct H29 as [_ H29].
  destruct (8760 <? _)%Z in H29; discriminate H29.
Defined.

(** ** The irradiance of every row *)

Lemma getitem_Ok_In (df : Pandas.DataFrame) (name : string)
    (s : Pandas.Series) :
  Pandas.getitem df name = Ok s -> In (name, s) df.
Proof.
  induction df as [|[c s'] rest IH]; cbn [Pandas.getitem]; [discriminate|].
  destruct (String.eqb c name) eqn:E.
  - apply String.eqb_eq in E. subst c. intros H. injection H as <-. now left.
  - intros H. right. now apply IH.
Qed.

Lemma getitem_missing (df : Pandas.DataFrame) (name : string) :
  existsb (String.eqb name) (Pandas.columns df) = false ->
  Pandas.getitem df name = Raise (KeyError name).
Proof.
  induction df as [|[c s] rest IH]; cbn; [reflexivity|].
  rewrite orb_false_iff. intros [Hc Hrest].
  rewrite String.eqb_sym, Hc. now apply IH.
Qed.

Lemma getitem_setitem_same (df : Pandas.DataFrame) (name : string)
    (v : Pandas.Series) :
  Pandas.getitem (Pandas.setitem df name v) name = Ok v.
Proof.
  induction df as [|[c s] rest IH]; cbn.
  - now rewrite String.eqb_refl.
  - destruct (String.eqb c name) eqn:E; cbn; now rewrite E.
Qed.

Lemma getitem_setitem_other (df : Pandas.DataFrame) (name other : string)
    (v : Pandas.Series) :
  other <> name ->
  Pandas.getitem (Pandas.setitem df name v) other = Pandas.getitem df other.
Proof.
  intros Hne. induction df as [|[c s] rest IH]; cbn.
  - destruct (String.eqb name other) eqn:E; [|reflexivity].
    apply String.eqb_eq in E. congruence.
  - destruct (String.eqb c name) eqn:E; cbn.
    + apply String.eqb_eq in E. subst c.
      destruct (String.eqb name other) eqn:E'; [|reflexivity].
      apply String.eqb_eq in E'. congruence.
    + now rewrite IH.
Qed.

Lemma columns_setitem (df : Pandas.DataFrame) (name : string)
    (v : Pandas.Series) :
  Pandas.columns (Pandas.setitem df name v)
  = if existsb (String.eqb name) (Pandas.columns df)
    then Pandas.columns df
    else Pandas.columns df ++ [name].
Proof.
  induction df as [|[c s] rest IH]; cbn; [reflexivity|].
  rewrite (String.eqb_sym name c).
  destruct (String.eqb c name) eqn:E; cbn; [reflexivity|].
  unfold Pandas.columns in IH. rewrite IH.
  now destruct (existsb _ _).
Qed.

Lemma iloc_last_In (s : Pandas.Series) :
  s <> [] -> exists c, Pandas.iloc_last s = Ok c /\ In c s.
Proof.
  intros Hs. unfold Pandas.iloc_last.
  destruct (rev s) as [|c r] eqn:E.
  - apply (f_equal (@rev _)) in E. rewrite rev_involutive in E. contradiction.
  - exists c. split; [reflexivity|].
    apply in_rev. rewrite E. now left.
Qed.

Lemma iloc_inside (s : Pandas.Series) (t : nat) :
  (t < List.length s)%nat ->
  exists c, nth_error s t = Some c /\ Pandas.iloc s t = Ok c.
Proof.
  intros Ht. unfold Pandas.iloc.
  destruct (nth_error s t) as [c|] eqn:E; [now exists c|].
  apply nth_error_None in E. lia.
Qed.

(** When every token is carried, the check passes and each key holds a
    label of the frame that carries it. *)
Lemma checked_columns_found (cols : list string) :
  not_carried cols = [] ->
  exists d,
    PVPanel.checked_columns cols = Ok d /\
    forall k, In k PVPanel.required_columns ->
      exists c, PVPanel.resolved k d = Ok c /\ In c cols /\
                carries k c = true.
Proof.
  intros Hnone. rewrite not_carried_filter in Hnone.
  unfold PVPanel.checked_columns. rewrite resolve_columns_last.
  rewrite (proj2 (existsb_none_of_map _ _) Hnone).
  eexists. split; [reflexivity|].
  intros k Hk.
  destruct (resolved_of_map _ _ Hnone k Hk) as (c & Hc & Hres).
  destruct (find_rev_last _ _ _ Hc) as (pre & post & Hcols & Hcar & _).
  exists c. repeat split; [exact Hres| |exact Hcar].
  rewrite Hcols. apply in_or_app. right. now left.
Qed.

Lemma column_of_key (data : Pandas.DataFrame) (d : list (string * string))
    (k : string) :
  wf_frame data ->
  (exists c, PVPanel.resolved k d = Ok c /\ In c (Pandas.columns data) /\
             carries k c = true) ->
  exists c s,
    (c0 <- PVPanel.resolved k d ;; Pandas.getitem data c0) = Ok s /\
    In (c, s) data /\ carries k c = true /\
    List.length s = Pandas.len data.
Proof.
  intros Hwf (c & Hres & Hin & Hcar).
  destruct (getitem_In data c Hin) as [s Hs].
  exists c, s. rewrite Hres. cbn [bind]. split; [exact Hs|].
  pose proof (getitem_Ok_In _ _ _ Hs) as HIn.
  repeat split; [exact HIn | exact Hcar|].
  destruct Hwf as [_ Hwf]. rewrite Forall_forall in Hwf.
  apply (Hwf _ HIn).
Qed.

Lemma year_days_runs (month day : Pandas.Series) (rows : nat) :
  day <> [] -> month <> [] -> Forall calendar_month month ->
  exists yd, PVPanel.year_days month day rows = Ok yd.
Proof.
  intros Hday Hmonth Hcal. unfold PVPanel.year_days.
  destruct (iloc_last_In day Hday) as (cd & -> & _).
  destruct (iloc_last_In month Hmonth) as (cm & -> & Hcm).
  rewrite Forall_forall in Hcal.
  destruct (Hcal cm Hcm) as (m & -> & Hm).
  cbn [bind Pandas.cell_add_int Pandas.as_index].
  destruct (np_getitem_inside
              (Pandas.cumsum
                 [31; PVPanel.February rows; 31; 30; 31; 30; 31; 31; 30; 31;
                  30; 31]%Z) (m + -1)) as (a & _ & ->).
  - cbn [Pandas.cumsum Pandas.cumsum_from List.length]. lia.
  - cbn [bind]. now eexists.
Qed.

Lemma nonempty_of_length {A : Type} (l : list A) :
  (0 < List.length l)%nat -> l <> [].
Proof.
  destruct l; [cbn; lia | discriminate].
Qed.

Lemma irradiance_vector_runs (np : NumpyOps) (self : PVPanel.t) :
  not_carried (Pandas.columns (PVPanel.irradiance_data self)) = [] ->
  wf_frame (PVPanel.irradiance_data self) ->
  (0 < Pandas.len (PVPanel.irradiance_data self))%nat ->
  (forall c s, In (c, s) (PVPanel.irradiance_data self) ->
               carries "month" c = true -> Forall calendar_month s) ->
  exists irr cg sg cz sz,
    PVPanel.calculate_irradiance_vector self
    = Ok (PVPanel.with_irradiance_data
            (Pandas.setitem (PVPanel.irradiance_data self) CI irr) self,
          Pandas.setitem (PVPanel.irradiance_data self) CI irr) /\
    List.length irr = Pandas.len (PVPanel.irradiance_data self) /\
    In (cg, sg) (PVPanel.irradiance_data self) /\
    carries "horizontal irradiance" cg = true /\
    In (cz, sz) (PVPanel.irradiance_data self) /\
    carries "solar zenith" cz = true /\
    forall t g z,
      nth_error sg t = Some g -> nth_error sz t = Some z ->
      exists d h,
        nth_error irr t
        = Some (Pandas.CFloat
                  (PVPanel.radiation_slope_surface_default
                     d h (Pandas.cell_Q g) (Pandas.cell_Q z))).
Proof.
  intros Hnone Hwf Hrows Hmonths.
  set (data := PVPanel.irradiance_data self) in *.
  destruct (checked_columns_found _ Hnone) as (d & Hd & Hall).
  destruct (column_of_key data d "month" Hwf) as (cm & sm & Em & Hm & Hcm & Lm);
    [apply Hall; simpl; tauto|].
  destruct (column_of_key data d "day" Hwf) as (cd & sd & Ed & _ & _ & Ld);
    [apply Hall; simpl; tauto|].
  destruct (column_of_key data d "hour" Hwf) as (ch & sh & Eh & _ & _ & Lh);
    [apply Hall; simpl; tauto|].
  destruct (column_of_key data d "horizontal irradiance" Hwf)
    as (cg & sg & Eg & Hg & Hcg & Lg); [apply Hall; simpl; tauto|].
  destruct (column_of_key data d "solar zenith" Hwf)
    as (cz & sz & Ez & Hz & Hcz & Lz); [apply Hall; simpl; tauto|].
  pose proof (Hmonths cm sm Hm Hcm) as Hcal.
  destruct (year_days_runs sm sd (Pandas.len data)) as [yd Hyd];
    [apply nonempty_of_length; lia | apply nonempty_of_length; lia
    | exact Hcal |].
  destruct (day_of_year_in_table sm sd (PVPanel.DY_per_MO yd)
              (DY_per_MO_length yd)) as (doy & Hdoy & Ldoy & _).
  { eapply Forall_impl; [|exact Hcal]. apply calendar_in_table. }
  rewrite Ld, Lm, Nat.min_id in Ldoy.
  set (row := fun t : nat =>
         d0 <- Pandas.iloc doy t ;;
         h <- Pandas.iloc sh t ;;
         sza <- Pandas.iloc sz t ;;
         GHR <- Pandas.iloc sg t ;;
         Ok (Pandas.CFloat
               (PVPanel.radiation_slope_surface_default
                  (Pandas.cell_Q d0) (Pandas.cell_Q h) (Pandas.cell_Q GHR)
                  (Pandas.cell_Q sza)))).
  assert (Hrow : forall t, (t < Pandas.len data)%nat ->
            exists d0 h z g,
              nth_error sz t = Some z /\ nth_error sg t = Some g /\
              row t = Ok (Pandas.CFloat
                            (PVPanel.radiation_slope_surface_default
                               (Pandas.cell_Q d0) (Pandas.cell_Q h)
                               (Pandas.cell_Q g) (Pandas.cell_Q z)))).
  { intros t Ht. unfold row.
    destruct (iloc_inside doy t) as (d0 & _ & ->); [lia|].
    destruct (iloc_inside sh t) as (h & _ & ->); [lia|].
    destruct (iloc_inside sz t) as (z & Hz' & ->); [lia|].
    destruct (iloc_inside sg t) as (g & Hg' & ->); [lia|].
    cbn [bind]. now exists d0, h, z, g. }
  destruct (mapM_total row (seq 0 (Pandas.len data))) as [irr Hirr].
  { intros t Ht. apply in_seq in Ht.
    destruct (Hrow t) as (d0 & h & z & g & _ & _ & ->); [lia|]. now eexists. }
  exists irr, cg, sg, cz, sz.
  split.
  { unfold PVPanel.calculate_irradiance_vector. fold data.
    rewrite Hd. cbn [bind]. rewrite Em. cbn [bind]. rewrite Ed. cbn [bind].
    rewrite Eh. cbn [bind]. rewrite Eg. cbn [bind]. rewrite Ez. cbn [bind].
    rewrite Hyd. cbn [bind]. rewrite Hdoy. cbn [bind].
    fold row. rewrite Hirr. reflexivity. }
  split.
  { rewrite (mapM_length _ _ _ Hirr). apply length_seq. }
  repeat split; try assumption.
  intros t g z Hgt Hzt.
  assert (Ht : (t < Pandas.len data)%nat).
  { rewrite <- Lg. apply nth_error_Some. congruence. }
  destruct (mapM_nth _ _ _ Hirr t t) as (v & Hv & Hnth).
  { rewrite nth_error_nth' with (d := O) by (rewrite length_seq; lia).
    now rewrite seq_nth by lia. }
  destruct (Hrow t Ht) as (d0 & h & z' & g' & Hz' & Hg' & Hr).
  rewrite Hr in Hv. injection Hv as <-.
  assert (z' = z) by congruence. assert (g' = g) by congruence. subst.
  now exists (Pandas.cell_Q d0), (Pandas.cell_Q h).
Qed.

(** X13.  On a frame that has rows, with distinct labels and columns of
    one length, in which every token is carried by a label and every column carrying
    [month] holds integers from 1 to 12, [calculate_irradiance_vector]
    returns.  The returned frame has a [Calculated_Irradiance] column with
    one value per row, every other column is as before, and the label is
    added at the end unless it was there already. *)
Theorem irradiance_vector_adds_one_column (np : NumpyOps) (self : PVPanel.t) :
  not_carried (Pandas.columns (PVPanel.irradiance_data self)) = [] ->
  wf_frame (PVPanel.irradiance_data self) ->
  (0 < Pandas.len (PVPanel.irradiance_data self))%nat ->
  (forall c s, In (c, s) (PVPanel.irradiance_data self) ->
               carries "month" c = true -> Forall calendar_month s) ->
  exists df irr,
    PVPanel.calculate_irradiance_vector self
    = Ok (PVPanel.with_irradiance_data df self, df) /\
    Pandas.getitem df CI = Ok irr /\
    List.length irr = Pandas.len (PVPanel.irradiance_data self) /\
    (forall name, name <> CI ->
       Pandas.getitem df name
       = Pandas.getitem (PVPanel.irradiance_data self) name) /\
    Pandas.columns df
    = if existsb (String.eqb CI)
                 (Pandas.columns (PVPanel.irradiance_data self))
      then Pandas.columns (PVPanel.irradiance_data self)
      else Pandas.columns (PVPanel.irradiance_data self) ++ [CI].
Proof.
  intros Hnone Hwf Hrows Hmonths.
  destruct (irradiance_vector_runs np self Hnone Hwf Hrows Hmonths)
    as (irr & _ & _ & _ & _ & Hrun & Hlen & _).
  exists (Pandas.setitem (PVPanel.irradiance_data self) CI irr), irr.
  split; [exact Hrun|].
  split; [apply getitem_setitem_same|].
  split; [exact Hlen|].
  split; [intros name Hne; now apply getitem_setitem_other|].
  apply columns_setitem.
Qed.

Lemma default_guard (np : NumpyOps) (d h g z : Q) :
  g == 0 \/ z < 0 -> PVPanel.radiation_slope_surface_default d h g z = 0.
Proof.
  intros H. unfold PVPanel.radiation_slope_surface_default,
    PVPanel.radiation_slope_surface.
  destruct H as [H | H].
  - apply Qeq_bool_iff in H. now rewrite H.
  - apply Qltb_lt in H. rewrite H. now rewrite orb_true_r.
Qed.

(** X14.  On such a frame, a row in which the horizontal irradiance is 0
    or the solar zenith is negative gets the calculated irradiance 0. *)
Theorem night_rows_get_zero (np : NumpyOps) (self : PVPanel.t) (t : nat) :
  not_carried (Pandas.columns (PVPanel.irradiance_data self)) = [] ->
  wf_frame (PVPanel.irradiance_data self) ->
  (forall c s, In (c, s) (PVPanel.irradiance_data self) ->
               carries "month" c = true -> Forall calendar_month s) ->
  (t < Pandas.len (PVPanel.irradiance_data self))%nat ->
  (forall c s g, In (c, s) (PVPanel.irradiance_data self) ->
                 carries "horizontal irradiance" c = true ->
                 nth_error s t = Some g -> Pandas.cell_Q g == 0) \/
  (forall c s z, In (c, s) (PVPanel.irradiance_data self) ->
                 carries "solar zenith" c = true ->
                 nth_error s t = Some z -> Pandas.cell_Q z < 0) ->
  exists df irr,
    PVPanel.calculate_irradiance_vector self
    = Ok (PVPanel.with_irradiance_data df self, df) /\
    Pandas.getitem df CI = Ok irr /\
    nth_error irr t = Some (Pandas.CFloat 0).
Proof.
  intros Hnone Hwf Hmonths Ht Hnight.
  destruct (irradiance_vector_runs np self Hnone Hwf) as
    (irr & cg & sg & cz & sz & Hrun & Hlen & Hg & Hcg & Hz & Hcz & Hval);
    [lia | exact Hmonths |].
  exists (Pandas.setitem (PVPanel.irradiance_data self) CI irr), irr.
  split; [exact Hrun|].
  split; [apply getitem_setitem_same|].
  destruct Hwf as [_ Hwf]. rewrite Forall_forall in Hwf.
  pose proof (Hwf _ Hg) as Lg. pose proof (Hwf _ Hz) as Lz.
  cbn [snd] in Lg, Lz.
  destruct (iloc_inside sg t) as (g & Hgt & _); [lia|].
  destruct (iloc_inside sz t) as (z & Hzt & _); [lia|].
  destruct (Hval t g z Hgt Hzt) as (d & h & ->).
  rewrite default_guard; [reflexivity|].
  destruct Hnight as [Hn | Hn].
  - left. exact (Hn cg sg g Hg Hcg Hgt).
  - right. exact (Hn cz sz z Hz Hcz Hzt).
Qed.

(** X15.  On a frame with distinct labels, the required columns and no
    row,
    [calculate_irradiance_vector] raises [IndexError] (from
    [day.iloc[-1]]). *)
Theorem irradiance_vector_on_empty_frame (np : NumpyOps) (self : PVPanel.t) :
  not_carried (Pandas.columns (PVPanel.irradiance_data self)) = [] ->
  NoDup (Pandas.columns (PVPanel.irradiance_data self)) ->
  Forall (fun c => snd c = []) (PVPanel.irradiance_data self) ->
  PVPanel.calculate_irradiance_vector self = Raise IndexError.
Proof.
  intros Hnone Hdistinct Hempty.
  set (data := PVPanel.irradiance_data self) in *.
  assert (Hlen : Pandas.len data = 0%nat).
  { destruct data as [|[c s] rest]; [reflexivity|].
    inversion Hempty as [|? ? Hs _]; subst. cbn in Hs. now subst s. }
  assert (Hwf : wf_frame data).
  { split; [exact Hdistinct|].
    rewrite Hlen. eapply Forall_impl; [|exact Hempty].
    intros c Hc. now rewrite Hc. }
  destruct (checked_columns_found _ Hnone) as (d & Hd & Hall).
  destruct (column_of_key data d "month" Hwf) as (cm & sm & Em & _ & _ & Lm);
    [apply Hall; simpl; tauto|].
  destruct (column_of_key data d "day" Hwf) as (cd & sd & Ed & _ & _ & Ld);
    [apply Hall; simpl; tauto|].
  destruct (column_of_key data d "hour" Hwf) as (ch & sh & Eh & _ & _ & Lh);
    [apply Hall; simpl; tauto|].
  destruct (column_of_key data d "horizontal irradiance" Hwf)
    as (cg & sg & Eg & _ & _ & Lg); [apply Hall; simpl; tauto|].
  destruct (column_of_key data d "solar zenith" Hwf)
    as (cz & sz & Ez & _ & _ & Lz); [apply Hall; simpl; tauto|].
  unfold PVPanel.calculate_irradiance_vector. fold data.
  rewrite Hd. cbn [bind]. rewrite Em. cbn [bind]. rewrite Ed. cbn [bind].
  rewrite Eh. cbn [bind]. rewrite Eg. cbn [bind]. rewrite Ez. cbn [bind].
  rewrite Hlen in Ld. destruct sd; [|discriminate Ld]. reflexivity.
Qed.

(** ** Frame validation and column resolution *)

Lemma append_empty (s : string) : (s ++ "")%string = s.
Proof.
  induction s as [|c s IH]; cbn; [reflexivity | now rewrite IH].
Qed.

Lemma py_in_refl (s : string) : py_in s s = true.
Proof.
  apply py_in_spec. exists EmptyString, EmptyString. cbn.
  now rewrite append_empty.
Qed.

Lemma exact_label_carries (k : string) (cols : list string) :
  existsb (String.eqb k) (map lower cols) = true ->
  existsb (carries k) cols = true.
Proof.
  intros H. apply existsb_exists in H. destruct H as (l & Hl & Hk).
  apply in_map_iff in Hl. destruct Hl as (c & <- & Hc).
  apply String.eqb_eq in Hk. apply existsb_exists. exists c.
  split; [exact Hc|]. unfold carries. rewrite <- Hk. apply py_in_refl.
Qed.

(** X16.  When [validate_irradiance_data] accepts a frame it returns
    that frame unchanged, and the column check at the start of
    [calculate_irradiance_vector] passes on the columns of the returned
    frame: every token is carried by a label. *)
Theorem validated_frame_passes_column_check
    (data validated : Pandas.DataFrame) :
  PVPanel.validate_irradiance_data data = Ok validated ->
  validated = data /\
  not_carried (Pandas.columns validated) = [] /\
  exists d, PVPanel.checked_columns (Pandas.columns validated) = Ok d.
Proof.
  unfold PVPanel.validate_irradiance_data.
  destruct (forallb _ _) eqn:E; [|discriminate].
  intros H. injection H as <-. split; [reflexivity|].
  assert (Hnone : not_carried (Pandas.columns data) = []).
  { rewrite forallb_forall in E. unfold not_carried.
    apply filter_none. intros k Hk.
    apply negb_false_iff. apply exact_label_carries.
    specialize (E k Hk).
    replace (lower k) with k in E; [exact E|].
    cbn in Hk.
    repeat (destruct Hk as [<- | Hk]; [reflexivity|]). destruct Hk. }
  split; [exact Hnone|].
  destruct (checked_columns_found _ Hnone) as (d & Hd & _). now exists d.
Qed.

Lemma validated_frame_passes_column_check_witness :
  not_carried (Pandas.columns Examples.weather) = [] /\
  exists d, PVPanel.checked_columns (Pandas.columns Examples.weather) = Ok d.
Proof.
  apply (validated_frame_passes_column_check Examples.weather
           Examples.weather).
  reflexivity.
Defined.

(** ** Power output: which exception *)

(** X17.  [calculate_power_output] raises on every panel: [ValueError]
    without a [Calculated_Irradiance] column, else [KeyError] without a
    column labelled exactly [Temperature], else [AttributeError] for
    [TCN]. *)
Theorem power_output_always_raises (self : PVPanel.t) :
  let cols := Pandas.columns (PVPanel.irradiance_data self) in
  PVPanel.calculate_power_output self
  = if negb (existsb (String.eqb CI) cols) then
      Raise (ValueError
               ("Irradiance data must be calculated first. "
                ++ "Use calculate_irradiance_vector method.") [])
    else if negb (existsb (String.eqb "Temperature") cols) then
      Raise (KeyError "Temperature")
    else Raise (AttributeError "TCN").
Proof.
  intros cols. unfold PVPanel.calculate_power_output. fold cols.
  change "Calculated_Irradiance"%string with CI.
  destruct (existsb (String.eqb CI) cols) eqn:Eci; cbn [negb]; [|reflexivity].
  destruct (getitem_In (PVPanel.irradiance_data self) CI) as [s1 H1].
  { apply existsb_exists in Eci. destruct Eci as (x & Hx & Heq).
    apply String.eqb_eq in Heq. now subst x. }
  rewrite H1. cbn [bind].
  destruct (existsb (String.eqb "Temperature") cols) eqn:Et; cbn [negb].
  - destruct (getitem_In (PVPanel.irradiance_data self) "Temperature")
      as [s2 H2].
    { apply existsb_exists in Et. destruct Et as (x & Hx & Heq).
      apply String.eqb_eq in Heq. now subst x. }
    rewrite H2. reflexivity.
  - rewrite (getitem_missing _ _ Et). reflexivity.
Qed.

(** ** Running the time series twice *)

Lemma setitem_setitem (df : Pandas.DataFrame) (name : string)
    (v w : Pandas.Series) :
  Pandas.setitem (Pandas.setitem df name v) name w = Pandas.setitem df name w.
Proof.
  induction df as [|[c s] rest IH]; cbn.
  - now rewrite String.eqb_refl.
  - destruct (String.eqb c name) eqn:E; cbn; rewrite E; [reflexivity|].
    now rewrite IH.
Qed.

Lemma len_setitem (df : Pandas.DataFrame) (name : string) (v : Pandas.Series) :
  df <> [] -> List.length v = Pandas.len df ->
  Pandas.len (Pandas.setitem df name v) = Pandas.len df.
Proof.
  destruct df as [|[c s] rest]; [contradiction|]. intros _ Hv. cbn.
  destruct (String.eqb c name); cbn; [exact Hv | reflexivity].
Qed.

Lemma CI_carries_nothing (k : string) :
  In k PVPanel.required_columns -> carries k CI = false.
Proof.
  cbn. intros Hk.
  repeat (destruct Hk as [<- | Hk]; [reflexivity|]). destruct Hk.
Qed.

Lemma checked_columns_setitem (df : Pandas.DataFrame) (v : Pandas.Series) :
  PVPanel.checked_columns (Pandas.columns (Pandas.setitem df CI v))
  = PVPanel.checked_columns (Pandas.columns df).
Proof.
  rewrite columns_setitem.
  destruct (existsb (String.eqb CI) (Pandas.columns df)); [reflexivity|].
  unfold PVPanel.checked_columns. rewrite !resolve_columns_last.
  assert (H : map (fun k => (k, last_carrying k (Pandas.columns df ++ [CI])))
                  PVPanel.required_columns
              = map (fun k => (k, last_carrying k (Pandas.columns df)))
                    PVPanel.required_columns).
  { apply map_ext_in. intros k Hk. rewrite last_carrying_snoc.
    now rewrite (CI_carries_nothing k Hk). }
  now rewrite H.
Qed.

Lemma checked_columns_Ok_found (cols : list string)
    (d : list (string * string)) :
  PVPanel.checked_columns cols = Ok d ->
  forall k c, In k PVPanel.required_columns ->
              PVPanel.resolved k d = Ok c -> c <> CI.
Proof.
  intros Hd k c Hk Hres Hc. subst c.
  assert (Hnone : not_carried cols = []).
  { destruct (not_carried cols) eqn:E; [reflexivity|].
    rewrite checked_columns_missing in Hd by (rewrite E; discriminate).
    discriminate Hd. }
  destruct (checked_columns_found cols Hnone) as (d' & Hd' & Hall).
  assert (d' = d) by congruence. subst d'.
  destruct (Hall k Hk) as (c & Hc & _ & Hcar).
  assert (c = CI) by congruence. subst c.
  rewrite (CI_carries_nothing k Hk) in Hcar. discriminate.
Qed.

Lemma column_after_setitem (df : Pandas.DataFrame) (v : Pandas.Series)
    (cols : list string) (d : list (string * string)) (k : string) :
  PVPanel.checked_columns cols = Ok d -> In k PVPanel.required_columns ->
  (c <- PVPanel.resolved k d ;; Pandas.getitem (Pandas.setitem df CI v) c)
  = (c <- PVPanel.resolved k d ;; Pandas.getitem df c).
Proof.
  intros Hd Hk. destruct (PVPanel.resolved k d) as [c|e] eqn:E; [|reflexivity].
  cbn [bind]. apply getitem_setitem_other.
  now apply (checked_columns_Ok_found cols d Hd k c Hk).
Qed.

(** X18.  When [calculate_irradiance_vector] returns on a frame with
    distinct labels, calling it again on the resulting panel returns the
    same panel and the same frame. *)
Theorem irradiance_vector_rerun_is_stable
    (np : NumpyOps) (self self' : PVPanel.t) (df : Pandas.DataFrame) :
  NoDup (Pandas.columns (PVPanel.irradiance_data self)) ->
  PVPanel.calculate_irradiance_vector self = Ok (self', df) ->
  PVPanel.calculate_irradiance_vector self' = Ok (self', df).
Proof.
  intros _. unfold PVPanel.calculate_irradiance_vector.
  set (data := PVPanel.irradiance_data self).
  destruct (PVPanel.checked_columns (Pandas.columns data)) as [d|e] eqn:Hd;
    [|discriminate]. cbn [bind].
  destruct (c <- PVPanel.resolved "month" d ;; Pandas.getitem data c)
    as [month|e] eqn:Em; [|discriminate]. cbn [bind].
  destruct (c <- PVPanel.resolved "day" d ;; Pandas.getitem data c)
    as [day|e] eqn:Ed; [|discriminate]. cbn [bind].
  destruct (c <- PVPanel.resolved "hour" d ;; Pandas.getitem data c)
    as [hour|e] eqn:Eh; [|discriminate]. cbn [bind].
  destruct (c <- PVPanel.resolved "horizontal irradiance" d ;;
            Pandas.getitem data c) as [ghr|e] eqn:Eg; [|discriminate].
  cbn [bind].
  destruct (c <- PVPanel.resolved "solar zenith" d ;; Pandas.getitem data c)
    as [sza|e] eqn:Ez; [|discriminate]. cbn [bind].
  destruct (PVPanel.year_days month day (Pandas.len data)) as [yd|e] eqn:Hyd;
    [|discriminate]. cbn [bind].
  destruct (PVPanel.day_of_year month day (PVPanel.DY_per_MO yd))
    as [doy|e] eqn:Hdoy; [|discriminate]. cbn [bind].
  destruct (Pandas.mapM _ (seq 0 (Pandas.len data))) as [irr|e] eqn:Hirr;
    [|discriminate]. cbn [bind].
  intros H. injection H as <- <-.
  cbn [PVPanel.irradiance_data PVPanel.with_irradiance_data].
  fold CI. fold CI in Hirr.
  assert (Hne : data <> []).
  { intros Hnil. rewrite Hnil in Hd. discriminate Hd. }
  assert (Hlen : Pandas.len (Pandas.setitem data CI irr) = Pandas.len data).
  { apply len_setitem; [exact Hne|].
    rewrite (mapM_length _ _ _ Hirr). apply length_seq. }
  rewrite checked_columns_setitem, Hd. cbn [bind].
  rewrite !(column_after_setitem data irr _ d _ Hd) by (simpl; tauto).
  rewrite Em. cbn [bind]. rewrite Ed. cbn [bind]. rewrite Eh. cbn [bind].
  rewrite Eg. cbn [bind]. rewrite Ez. cbn [bind].
  rewrite Hlen, Hyd. cbn [bind]. rewrite Hdoy. cbn [bind].
  rewrite Hirr. cbn [bind].
  rewrite setitem_setitem. reflexivity.
Qed.

(** ** The example frame *)
Lemma example_frame_is_regular :
  not_carried (Pandas.columns (PVPanel.irradiance_data Examples.panel)) = [] /\
  wf_frame (PVPanel.irradiance_data Examples.panel) /\
  (0 < Pandas.len (PVPanel.irradiance_data Examples.panel))%nat /\
  (forall c s, In (c, s) (PVPanel.irradiance_data Examples.panel) ->
               carries "month" c = true -> Forall calendar_month s).
Proof.
  split; [reflexivity|]. split.
  { split; [|repeat constructor].
    repeat (constructor; [cbn; intuition discriminate|]). constructor. }
  split; [cbn; lia|].
  intros c s Hin Hcar. cbn in Hin.
  repeat (destruct Hin as [Hin | Hin];
          [injection Hin as <- <-; try discriminate Hcar|]).
  - repeat constructor; exists 6%Z; (split; [reflexivity | lia]).
  - destruct Hin.
Qed.

Lemma irradiance_vector_adds_one_column_witness :
  exists df irr,
    PVPanel.calculate_irradiance_vector (np := Examples.np_at_zero)
      Examples.panel
    = Ok (PVPanel.with_irradiance_data df Examples.panel, df) /\
    Pandas.getitem df CI = Ok irr /\
    List.length irr = 2%nat /\
    Pandas.getitem df "Temperature"
    = Ok [Pandas.CFloat 18.5; Pandas.CFloat 29] /\
    Pandas.columns df = Pandas.columns Examples.weather.
Proof.
  destruct example_frame_is_regular as (H1 & H2 & H3 & H4).
  destruct (irradiance_vector_adds_one_column Examples.np_at_zero
              Examples.panel H1 H2 H3 H4)
    as (df & irr & Hrun & Hget & Hlen & Hother & Hcols).
  exists df, irr. split; [exact Hrun|]. split; [exact Hget|].
  split; [exact Hlen|]. split; [|exact Hcols].
  rewrite Hother; [reflexivity | discriminate].
Defined.

Lemma night_rows_get_zero_witness :
  exists df irr,
    PVPanel.calculate_irradiance_vector (np := Examples.np_at_zero)
      Examples.panel
    = Ok (PVPanel.with_irradiance_data df Examples.panel, df) /\
    Pandas.getitem df CI = Ok irr /\
    nth_error irr 0 = Some (Pandas.CFloat 0).
Proof.
  destruct example_frame_is_regular as (H1 & H2 & H3 & H4).
  apply (night_rows_get_zero Examples.np_at_zero Examples.panel 0 H1 H2 H4).
  - cbn. lia.
  - left. intros c s g Hin Hcar Hg. cbn in Hin.
    repeat (destruct Hin as [Hin | Hin];
            [injection Hin as <- <-; try discriminate Hcar|]).
    + cbn in Hg. injection Hg as <-. reflexivity.
    + destruct Hin.
Defined.

Lemma irradiance_vector_on_empty_frame_witness :
  PVPanel.__init__default Examples.empty_weather = Ok Examples.panel_empty /\
  PVPanel.calculate_irradiance_vector (np := Examples.np_at_zero)
    Examples.panel_empty = Raise IndexError.
Proof.
  split; [reflexivity|].
  apply (irradiance_vector_on_empty_frame Examples.np_at_zero
           Examples.panel_empty).
  - reflexivity.
  - repeat (constructor; [cbn; intuition discriminate|]). constructor.
  - repeat constructor.
Defined.

Lemma irradiance_vector_rerun_is_stable_witness :
  exists self' df,
    PVPanel.calculate_irradiance_vector (np := Examples.np_at_zero)
      Examples.panel = Ok (self', df) /\
    PVPanel.calculate_irradiance_vector (np := Examples.np_at_zero) self'
    = Ok (self', df).
Proof.
  destruct example_frame_is_regular as (H1 & H2 & H3 & H4).
  destruct (irradiance_vector_runs Examples.np_at_zero Examples.panel
              H1 H2 H3 H4) as (irr & _ & _ & _ & _ & Hrun & _).
  eexists. eexists. split; [exact Hrun|].
  apply (irradiance_vector_rerun_is_stable Examples.np_at_zero
           Examples.panel _ _ (proj1 H2) Hrun).
Defined.
